(** * Qutel Car Events: the UOM helper API

    A shallow embedding of [qutel_car_events/api/uom_helper.py] and the
    properties of its six remote-callable functions.

    Python floats are IEEE 754 binary64 numbers: they are modelled by the
    Standard Library's [spec_float] at precision 53 and maximal exponent
    1024, so every arithmetic step of the source is the executable
    operation of the same name.  JSON values are an inductive type,
    dictionaries are association lists in insertion order, exceptions are
    values of an error monad that also threads the platform's error log,
    and everything the host ERP platform supplies (document store,
    settings, translation, coercions) is a field of the [Platform]
    record, over which the theorems quantify. *)

From Stdlib Require Import ZArith String Ascii List Bool Permutation Lia.
From Stdlib Require Import Floats.SpecFloat.
From stdpp Require Import base list strings gmap pretty.
Import ListNotations.

Open Scope Z_scope.

#[local] Set Warnings "-register-all".

(** ** Python floats *)

Module PyFloat.

Definition float : Type := spec_float.

Definition prec : Z := 53.
Definition emax : Z := 1024.

Definition mul : float → float → float := SFmul prec emax.
Definition div : float → float → float := SFdiv prec emax.
Definition add : float → float → float := SFadd prec emax.

Definition ltb : float → float → bool := SFltb.
Definition leb : float → float → bool := SFleb.
Definition eqb : float → float → bool := SFeqb.

(** [float(z)] for an integer in range; the literals of the module
    ([0], [1]) are converted through it. *)
Definition of_Z (z : Z) : float := binary_normalize prec emax z 0 false.

Definition zero : float := of_Z 0.
Definition one : float := of_Z 1.

(** [x > 0]. *)
Definition is_positive (x : float) : bool := ltb zero x.


End PyFloat.

Abbreviation float := PyFloat.float.

(** ** Python values, exceptions and the error log *)

(** What [json.loads] produces and what the functions return. *)
Inductive pyval : Type :=
| VNone
| VBool (b : bool)
| VInt (z : Z)
| VFloat (f : float)
| VStr (s : string)
| VList (l : list pyval)
| VDict (d : list (string * pyval)).

(** A dictionary, in insertion order. *)
Abbreviation dict := (list (string * pyval)).

(** An exception derived from [Exception]: its class and [str(e)]. *)
Record exn : Type := Exn { exn_class : string; exn_text : string }.

Inductive result (A : Type) : Type :=
| Ok (a : A)
| Raise (e : exn).
Arguments Ok {A} a.
Arguments Raise {A} e.

(** One call of [frappe.log_error]: its positional arguments. *)
Definition log_entry : Type := list string.
Definition error_log : Type := list log_entry.

(** A computation may raise and may append to the error log. *)
Definition M (A : Type) : Type := error_log → result A * error_log.

Definition ret {A} (a : A) : M A := λ log, (Ok a, log).

Definition bind {A B} (m : M A) (k : A → M B) : M B :=
  λ log, match m log with
         | (Ok a, log') => k a log'
         | (Raise e, log') => (Raise e, log')
         end.

Definition lift {A} (r : result A) : M A := λ log, (r, log).

(** [try: body  except Exception as e: handler e]. *)
Definition try_except {A} (body : M A) (handler : exn → M A) : M A :=
  λ log, match body log with
         | (Ok a, log') => (Ok a, log')
         | (Raise e, log') => handler e log'
         end.

(** [frappe.log_error(args...)]. *)
Definition log_error (args : list string) : M unit :=
  λ log, (Ok tt, log ++ [args]).

Global Instance M_ret : MRet M := @ret.
Global Instance M_bind : MBind M := λ A B k m, bind m k.

Global Instance result_ret : MRet result := @Ok.
Global Instance result_bind : MBind result := λ A B k r,
  match r with
  | Ok a => k a
  | Raise e => Raise e
  end.

(** ** Builtins of the language *)

Definition NameError (name : string) : exn :=
  Exn "NameError" ("name '" +:+ name +:+ "' is not defined").

Definition AttributeError (ty attr : string) : exn :=
  Exn "AttributeError" ("'" +:+ ty +:+ "' object has no attribute '" +:+ attr +:+ "'").

Definition ZeroDivisionError : exn :=
  Exn "ZeroDivisionError" "float division by zero".

Definition type_name (v : pyval) : string :=
  match v with
  | VNone => "NoneType"
  | VBool _ => "bool"
  | VInt _ => "int"
  | VFloat _ => "float"
  | VStr _ => "str"
  | VList _ => "list"
  | VDict _ => "dict"
  end.

(** Truth value of an object, as [if v:] and [not v] test it. *)
Definition truthy (v : pyval) : bool :=
  match v with
  | VNone => false
  | VBool b => b
  | VInt z => negb (z =? 0)
  | VFloat f => negb (PyFloat.eqb f PyFloat.zero)
  | VStr s => negb (String.eqb s "")
  | VList l => negb (Nat.eqb (length l) 0)
  | VDict d => negb (Nat.eqb (length d) 0)
  end.

Definition str_truthy (s : string) : bool := negb (String.eqb s "").

Fixpoint dict_lookup (d : dict) (key : string) : option pyval :=
  match d with
  | [] => None
  | (k, v) :: d' => if String.eqb k key then Some v else dict_lookup d' key
  end.

(** [d.get(key, default)] on a dictionary. *)
Definition dict_get (d : dict) (key : string) (default : pyval) : pyval :=
  match dict_lookup d key with
  | Some v => v
  | None => default
  end.

(** [v.get(key, default)] on any object: only dictionaries have [get]. *)
Definition py_get (v : pyval) (key : string) (default : pyval) : result pyval :=
  match v with
  | VDict d => Ok (dict_get d key default)
  | _ => Raise (AttributeError (type_name v) "get")
  end.

(** [a / b] on floats. *)
Definition py_truediv (a b : float) : result float :=
  if PyFloat.eqb b PyFloat.zero then Raise ZeroDivisionError
  else Ok (PyFloat.div a b).

(** Numbers an accumulator that starts at the integer [0] can hold. *)
Inductive num : Type :=
| NInt (z : Z)
| NFloat (f : float).

Definition num_float (n : num) : float :=
  match n with
  | NInt z => PyFloat.of_Z z
  | NFloat f => f
  end.

(** [a + b]: integer addition on two integers, float addition otherwise. *)
Definition num_add (a b : num) : num :=
  match a, b with
  | NInt x, NInt y => NInt (x + y)
  | _, _ => NFloat (PyFloat.add (num_float a) (num_float b))
  end.

(** [a > b]. *)
Definition num_gt (a b : num) : bool := PyFloat.ltb (num_float b) (num_float a).

Definition num_val (n : num) : pyval :=
  match n with
  | NInt z => VInt z
  | NFloat f => VFloat f
  end.

(** [hay.startswith(needle)]. *)
Fixpoint starts_with (needle hay : string) : bool :=
  match needle, hay with
  | EmptyString, _ => true
  | String _ _, EmptyString => false
  | String a needle', String b hay' => Ascii.eqb a b && starts_with needle' hay'
  end.

(** [needle in hay] on strings. *)
Fixpoint is_substring (needle hay : string) : bool :=
  starts_with needle hay ||
  match hay with
  | EmptyString => false
  | String _ rest => is_substring needle rest
  end.

Definition lower_ascii (c : ascii) : ascii :=
  let n := nat_of_ascii c in
  if (Nat.leb 65 n && Nat.leb n 90)%bool then ascii_of_nat (n + 32) else c.

(** [s.lower()], on the ASCII letters. *)
Fixpoint py_lower (s : string) : string :=
  match s with
  | EmptyString => EmptyString
  | String c rest => String (lower_ascii c) (py_lower rest)
  end.

Definition digit_index (c : ascii) : option nat :=
  let n := nat_of_ascii c in
  if (Nat.leb 48 n && Nat.leb n 57)%bool then Some (n - 48)%nat else None.

(** [tpl.format(args...)] for the replacement fields [{0}] .. [{9}], the only
    ones the templates of this module contain. *)
Fixpoint py_format (tpl : string) (args : list string) : string :=
  match tpl with
  | EmptyString => EmptyString
  | String c tl =>
      let skip := String c (py_format tl args) in
      if Ascii.eqb c "{" then
        match tl with
        | String d (String cl rest) =>
            if Ascii.eqb cl "}" then
              match digit_index d ≫= (λ i, args !! i) with
              | Some a => a +:+ py_format rest args
              | None => skip
              end
            else skip
        | _ => skip
        end
      else skip
  end.

(** [sep.join(parts)]. *)
Fixpoint py_join (sep : string) (parts : list string) : string :=
  match parts with
  | [] => ""
  | [p] => p
  | p :: ps => p +:+ sep +:+ py_join sep ps
  end.

(** *** [sorted]

    [sorted(l, key=key)] is a stable sort; with [reverse=True] the list is
    reversed before and after the stable sort, which keeps elements of
    equal key in their original order.  Keys here are booleans, ordered
    [False < True]. *)

Section Sorted.
Context {A : Type} (key : A → bool).

Definition key_le (x y : A) : bool := implb (key x) (key y).

Fixpoint insert_sorted (x : A) (l : list A) : list A :=
  match l with
  | [] => [x]
  | y :: l' => if key_le x y then x :: y :: l' else y :: insert_sorted x l'
  end.

Definition stable_sort (l : list A) : list A := foldr insert_sorted [] l.

Definition py_sorted (reverse : bool) (l : list A) : list A :=
  if reverse then rev (stable_sort (rev l)) else stable_sort l.
End Sorted.

(** *** Names

    A name used in a function body is looked up among the function's own
    bindings (here: what the function imports), then among the names
    bound at module level (the module's imports and its functions), then
    among the builtins. *)

Definition module_globals : list string :=
  [ "frappe"; "_"; "Dict"; "List"; "Optional"; "Any";
    "get_item_uoms_with_conversion"; "get_uom_conversion_factor";
    "get_opportunity_calculations"; "validate_opportunity_data";
    "get_item_uoms_and_conversion"; "validate_integration_status" ].

(** The builtins the module uses. *)
Definition builtins : list string :=
  [ "isinstance"; "str"; "list"; "set"; "len"; "enumerate"; "sorted";
    "Exception" ].

Definition load_name (locals : list string) (name : string) : result unit :=
  if existsb (String.eqb name) (locals ++ module_globals ++ builtins) then Ok tt
  else Raise (NameError name).

(** ** The host platform

    Documents and tables of the ERP's document store, and the functions
    the module calls on the platform.  A call that can fail returns a
    [result]. *)

(** A row of the child table [UOM Conversion Detail]. *)
Record UOMConversionDetail : Type := {
  ucd_parent : string;
  ucd_uom : string;
  ucd_conversion_factor : float;
}.

(** An [Item] document with its [uoms] child rows. *)
Record Item : Type := {
  item_name : string;
  item_stock_uom : string;
  item_has_variants : Z;
  item_uoms : list UOMConversionDetail;
}.

(** A row of [tabCustom Field]. *)
Record CustomField : Type := {
  cf_fieldname : string;
  cf_dt : string;
}.

(** A calendar date, as [getdate] returns it. *)
Record date : Type := { year : Z; month : Z; day : Z }.

Definition date_ltb (a b : date) : bool :=
  (year a <? year b) ||
  ((year a =? year b) &&
   ((month a <? month b) || ((month a =? month b) && (day a <? day b)))).

Definition date_gtb (a b : date) : bool := date_ltb b a.

Record Platform : Type := {
  (** [frappe._]: the message in the user's language. *)
  translate : string → string;
  (** [frappe.utils.flt]: coercion to a float. *)
  flt : pyval → float;
  (** [frappe.utils.getdate]. *)
  getdate : pyval → result date;
  (** [json.loads]. *)
  json_loads : string → result pyval;
  (** [str] of a float. *)
  str_float : float → string;
  (** [frappe.get_cached_doc("Item", item_code)]. *)
  get_cached_doc : string → result (option Item);
  (** [frappe.db.get_single_value("Stock Settings",
      "allow_uom_with_conversion_rate_defined_in_item")], also the field of
      that name of [frappe.get_single("Stock Settings")]. *)
  allow_uom_with_conversion_rate_defined_in_item : result pyval;
  (** [erpnext.stock.get_item_details.get_conversion_factor]. *)
  get_conversion_factor : string → string → result dict;
  (** The tables, in the order a query returns their rows. *)
  tabCustomField : result (list CustomField);
  tabItem : result (list Item);
  tabUOMConversionDetail : result (list UOMConversionDetail);
}.

(** [_(tpl).format(args...)]. *)
Definition message (P : Platform) (tpl : string) (args : list string) : string :=
  py_format (translate P tpl) args.

(** ** The API module *)

Definition failure (msg : string) : pyval :=
  VDict [("success", VBool false); ("message", VStr msg)].

(** An entry of a [uoms] list. *)
Record UomEntry : Type := {
  entry_uom : string;
  entry_conversion_factor : float;
  entry_is_stock_uom : bool;
}.

Definition entry_val (e : UomEntry) : pyval :=
  VDict [("uom", VStr (entry_uom e));
         ("conversion_factor", VFloat (entry_conversion_factor e));
         ("is_stock_uom", VBool (entry_is_stock_uom e))].

(** The dictionary built from one [uom_detail] row of an item. *)
Definition detail_entry (stock_uom : string) (d : UOMConversionDetail) : UomEntry :=
  {| entry_uom := ucd_uom d;
     entry_conversion_factor := ucd_conversion_factor d;
     entry_is_stock_uom := String.eqb (ucd_uom d) stock_uom |}.

Definition stock_entry (stock_uom : string) : UomEntry :=
  {| entry_uom := stock_uom;
     entry_conversion_factor := PyFloat.one;
     entry_is_stock_uom := true |}.

Definition has_rows {A} (l : list A) : bool := negb (Nat.eqb (length l) 0).

(** *** get_item_uoms_with_conversion *)

Definition get_item_uoms_with_conversion_body (P : Platform) (item_code : string)
  : M pyval :=
  item ← lift (get_cached_doc P item_code);
  match item with
  | None => mret (failure (message P "Item not found" []))
  | Some item =>
      allow_uom_conversion ← lift (allow_uom_with_conversion_rate_defined_in_item P);
      let uoms :=
        if truthy allow_uom_conversion && has_rows (item_uoms item) then
          let uom_list := map (detail_entry (item_stock_uom item)) (item_uoms item) in
          py_sorted entry_is_stock_uom true uom_list
        else [stock_entry (item_stock_uom item)] in
      mret (VDict [("success", VBool true);
                   ("item_code", VStr item_code);
                   ("stock_uom", VStr (item_stock_uom item));
                   ("uoms", VList (map entry_val uoms));
                   ("default_uom", VStr (item_stock_uom item));
                   ("allow_uom_conversion",
                    if truthy allow_uom_conversion then allow_uom_conversion
                    else VBool false)])
  end.

Definition get_item_uoms_with_conversion (P : Platform) (item_code : string) : M pyval :=
  if negb (str_truthy item_code) then
    mret (failure (message P "Item Code is required" []))
  else
    try_except (get_item_uoms_with_conversion_body P item_code)
      (λ e,
         log_error ["Error in get_item_uoms_with_conversion: " +:+ exn_text e];;
         mret (failure (message P "Error fetching UOM data: {0}" [exn_text e]))).

(** *** get_uom_conversion_factor *)

Definition get_uom_conversion_factor_body (P : Platform) (item_code uom : string)
  : M pyval :=
  result ← lift (get_conversion_factor P item_code uom);
  match (if has_rows result then dict_lookup result "conversion_factor" else None) with
  | Some cf =>
      mret (VDict [("success", VBool true);
                   ("item_code", VStr item_code);
                   ("uom", VStr uom);
                   ("conversion_factor", cf)])
  | None =>
      mret (failure (message P "Conversion factor not found for {0} in {1}"
                       [uom; item_code]))
  end.

Definition get_uom_conversion_factor (P : Platform) (item_code uom : string) : M pyval :=
  if negb (str_truthy item_code) || negb (str_truthy uom) then
    mret (failure (message P "Item Code and UOM are required" []))
  else
    try_except (get_uom_conversion_factor_body P item_code uom)
      (λ e,
         log_error ["Error in get_uom_conversion_factor: " +:+ exn_text e];;
         mret (failure (message P "Error fetching conversion factor: {0}" [exn_text e]))).

(** *** Calls of names a function imports itself

    [from frappe.utils import flt] inside a function binds [flt] in that
    function only; each call first loads the name, then evaluates its
    argument. *)

Definition call_flt (locals : list string) (P : Platform) (arg : result pyval)
  : result float :=
  load_name locals "flt";; v ← arg; Ok (flt P v).

Definition call_getdate (locals : list string) (P : Platform) (v : pyval)
  : result date :=
  load_name locals "getdate";; getdate P v.

(** [json.loads(x) if isinstance(x, str) else x]. *)
Definition loads_if_str (locals : list string) (P : Platform) (x : pyval)
  : result pyval :=
  match x with
  | VStr s => load_name locals "json";; json_loads P s
  | _ => Ok x
  end.

(** *** get_opportunity_calculations *)

(** The names [get_opportunity_calculations] imports in its body. *)
Definition calculations_imports : list string := ["json"; "flt"].

(** The variables the loop over the items updates. *)
Record CalcState : Type := {
  calc_results : list pyval;
  calc_total_people : num;
  calc_total_amount : num;
}.

Definition calc_step (locals : list string) (P : Platform) (st : CalcState)
  (item : pyval) : result CalcState :=
  item_code ← py_get item "item_code" VNone;
  qty ← call_flt locals P (py_get item "qty" (VInt 0));
  rate ← call_flt locals P (py_get item "rate" (VInt 0));
  conversion_factor ← call_flt locals P (py_get item "conversion_factor" (VInt 1));
  people_qty ← call_flt locals P (py_get item "custom__people_qty" (VInt 0));
  let stock_qty := PyFloat.mul qty conversion_factor in
  let amount := PyFloat.mul stock_qty rate in
  stock_uom_rate ←
    (if num_gt (NFloat conversion_factor) (NInt 0)
     then q ← py_truediv rate conversion_factor; Ok (VFloat q)
     else Ok (VInt 0));
  Ok {| calc_total_people := num_add (calc_total_people st) (NFloat people_qty);
        calc_total_amount := num_add (calc_total_amount st) (NFloat amount);
        calc_results := calc_results st ++
          [VDict [("item_code", item_code);
                  ("qty", VFloat qty);
                  ("rate", VFloat rate);
                  ("conversion_factor", VFloat conversion_factor);
                  ("stock_qty", VFloat stock_qty);
                  ("amount", VFloat amount);
                  ("stock_uom_rate", stock_uom_rate);
                  ("custom__people_qty", VFloat people_qty)]] |}.

Fixpoint calc_loop (locals : list string) (P : Platform) (items : list pyval)
  (st : CalcState) : result CalcState :=
  match items with
  | [] => Ok st
  | item :: rest => st' ← calc_step locals P st item; calc_loop locals P rest st'
  end.

Definition get_opportunity_calculations_body (locals : list string) (P : Platform)
  (items_data : pyval) : result pyval :=
  items ← loads_if_str locals P items_data;
  match items with
  | VList items =>
      st ← calc_loop locals P items
             {| calc_results := []; calc_total_people := NInt 0;
                calc_total_amount := NInt 0 |};
      Ok (VDict [("success", VBool true);
                 ("items", VList (calc_results st));
                 ("total_people_qty", num_val (calc_total_people st));
                 ("total_amount", num_val (calc_total_amount st))])
  | _ => Ok (failure (message P "Invalid items data format" []))
  end.

Definition get_opportunity_calculations (P : Platform) (items_data : pyval) : M pyval :=
  try_except (lift (get_opportunity_calculations_body calculations_imports P items_data))
    (λ e,
       log_error ["Error in get_opportunity_calculations: " +:+ exn_text e;
                  "UOM Helper Error"];;
       mret (failure (message P "Error calculating amounts: {0}" [exn_text e]))).

(** *** validate_opportunity_data *)

(** The names [validate_opportunity_data] imports in its body. *)
Definition validation_imports : list string := ["json"; "getdate"; "date_diff"].

Definition TypeError_not_iterable (v : pyval) : exn :=
  Exn "TypeError" ("'" +:+ type_name v +:+ "' object is not iterable").

Fixpoint chars (s : string) : list pyval :=
  match s with
  | EmptyString => []
  | String c rest => VStr (String c EmptyString) :: chars rest
  end.

(** The elements a [for] loop over an object visits. *)
Definition py_iter (v : pyval) : result (list pyval) :=
  match v with
  | VList l => Ok l
  | VDict d => Ok (map (λ kv, VStr (fst kv)) d)
  | VStr s => Ok (chars s)
  | _ => Raise (TypeError_not_iterable v)
  end.

Definition str_num (P : Platform) (n : num) : string :=
  match n with
  | NInt z => pretty z
  | NFloat f => str_float P f
  end.

(** [if a and b: if cmp(getdate(a), getdate(b)): errors.append(msg)]. *)
Definition check_dates (locals : list string) (P : Platform) (a b : pyval)
  (cmp : date → date → bool) (msg : string) (errors : list string)
  : result (list string) :=
  if truthy a && truthy b then
    da ← call_getdate locals P a;
    db ← call_getdate locals P b;
    Ok (if cmp da db then errors ++ [msg] else errors)
  else Ok errors.

Record ValidationState : Type := {
  val_errors : list string;
  val_total_people : num;
}.

Definition validate_step (locals : list string) (P : Platform)
  (opp_start_date opp_end_date : pyval) (st : ValidationState)
  (idx : Z) (item : pyval) : result ValidationState :=
  event_start ← py_get item "custom_event_start_date" VNone;
  event_end ← py_get item "custom_event_end_date" VNone;
  people_qty ← call_flt locals P (py_get item "custom__people_qty" (VInt 0));
  let total_people := num_add (val_total_people st) (NFloat people_qty) in
  errors ← check_dates locals P event_start opp_start_date date_ltb
    (message P "Row {0}: Event start date cannot be before opportunity start date"
       [pretty idx]) (val_errors st);
  errors ← check_dates locals P event_end opp_end_date date_gtb
    (message P "Row {0}: Event end date cannot be after opportunity expected closing"
       [pretty idx]) errors;
  errors ← check_dates locals P event_start event_end date_gtb
    (message P "Row {0}: Event start date cannot be after event end date"
       [pretty idx]) errors;
  Ok {| val_errors := errors; val_total_people := total_people |}.

(** [for idx, item in enumerate(items, idx): ...]. *)
Fixpoint validate_loop (locals : list string) (P : Platform)
  (opp_start_date opp_end_date : pyval) (items : list pyval) (idx : Z)
  (st : ValidationState) : result ValidationState :=
  match items with
  | [] => Ok st
  | item :: rest =>
      st' ← validate_step locals P opp_start_date opp_end_date st idx item;
      validate_loop locals P opp_start_date opp_end_date rest (idx + 1) st'
  end.

Definition validate_opportunity_data_body (locals : list string) (P : Platform)
  (opportunity_data : pyval) : result pyval :=
  data ← loads_if_str locals P opportunity_data;
  opp_start_date ← py_get data "custom_opportunity_start_date" VNone;
  opp_end_date ← py_get data "expected_closing" VNone;
  max_people ← call_flt locals P (py_get data "custom_opportunity_people_qty" (VInt 0));
  errors ← check_dates locals P opp_start_date opp_end_date date_gtb
    (message P "Opportunity start date cannot be after expected closing date" []) [];
  items ← py_get data "items" (VList []);
  items ← py_iter items;
  st ← validate_loop locals P opp_start_date opp_end_date items 1
         {| val_errors := errors; val_total_people := NInt 0 |};
  let total_people := val_total_people st in
  let warnings :=
    if num_gt (NFloat max_people) (NInt 0) && num_gt total_people (NFloat max_people)
    then [message P "Total people quantity ({0}) exceeds maximum allowed ({1})"
            [str_num P total_people; str_float P max_people]]
    else [] in
  Ok (VDict [("success", VBool true);
             ("valid", VBool (Nat.eqb (length (val_errors st)) 0));
             ("errors", VList (map VStr (val_errors st)));
             ("warnings", VList (map VStr warnings));
             ("total_people_qty", num_val total_people)]).

Definition validate_opportunity_data (P : Platform) (opportunity_data : pyval) : M pyval :=
  try_except (lift (validate_opportunity_data_body validation_imports P opportunity_data))
    (λ e,
       log_error ["Error in validate_opportunity_data: " +:+ exn_text e];;
       mret (failure (message P "Error validating data: {0}" [exn_text e]))).

(** *** get_item_uoms_and_conversion *)

(** The failure dictionary of [get_item_uoms_and_conversion]. *)
Definition failure_uoms (msg : string) : pyval :=
  VDict [("success", VBool false);
         ("message", VStr msg);
         ("uoms", VList []);
         ("conversion_factor", VFloat PyFloat.one);
         ("stock_uom", VNone)].

(** [if result and "conversion_factor" in result: result["conversion_factor"]]. *)
Definition platform_factor (result : dict) : option pyval :=
  if has_rows result then dict_lookup result "conversion_factor" else None.

(** The search for the conversion factor of the requested UOM when the
    item's own UOM table is in use. *)
Definition search_conversion_factor (P : Platform) (item_code : string)
  (item_doc : Item) (uom : option string) : result pyval :=
  match uom with
  | Some uom =>
      if str_truthy uom then
        match find (λ uom_detail, String.eqb (ucd_uom uom_detail) uom)
                (item_uoms item_doc) with
        | Some uom_detail => Ok (VFloat (ucd_conversion_factor uom_detail))
        | None =>
            if String.eqb uom (item_stock_uom item_doc) then Ok (VFloat PyFloat.one)
            else
              result ← get_conversion_factor P item_code uom;
              match platform_factor result with
              | Some conversion_factor => Ok conversion_factor
              | None => Ok (VFloat PyFloat.one)
              end
        end
      else Ok (VFloat PyFloat.one)
  | None => Ok (VFloat PyFloat.one)
  end.

Definition opt_str_truthy (s : option string) : bool :=
  match s with
  | Some s => str_truthy s
  | None => false
  end.

Definition opt_str_eqb (s : option string) (t : string) : bool :=
  match s with
  | Some s => String.eqb s t
  | None => false
  end.

Definition get_item_uoms_and_conversion_body (P : Platform) (item_code : string)
  (uom : option string) : M pyval :=
  if negb (str_truthy item_code) then
    mret (failure_uoms (message P "Item Code is required" []))
  else
    item_doc ← lift (get_cached_doc P item_code);
    match item_doc with
    | None => mret (failure_uoms (message P "Item {0} not found" [item_code]))
    | Some item_doc =>
        let stock_uom := item_stock_uom item_doc in
        allow_custom_uom ← lift (allow_uom_with_conversion_rate_defined_in_item P);
        '(uoms, conversion_factor) ←
          (if truthy allow_custom_uom && has_rows (item_uoms item_doc) then
             conversion_factor ← lift (search_conversion_factor P item_code item_doc uom);
             mret (map (detail_entry stock_uom) (item_uoms item_doc), conversion_factor)
           else
             mret ([stock_entry stock_uom],
                   if negb (opt_str_truthy uom) || opt_str_eqb uom stock_uom
                   then VFloat PyFloat.one else VFloat PyFloat.one));
        mret (VDict [("success", VBool true);
                     ("uoms", VList (map entry_val uoms));
                     ("conversion_factor", conversion_factor);
                     ("stock_uom", VStr stock_uom);
                     ("allow_custom_uom", allow_custom_uom)])
    end.

Definition get_item_uoms_and_conversion (P : Platform) (item_code : string)
  (uom : option string) : M pyval :=
  try_except (get_item_uoms_and_conversion_body P item_code uom)
    (λ e,
       log_error ["Error in get_item_uoms_and_conversion: " +:+ exn_text e;
                  "UOM Helper Error"];;
       mret (failure_uoms (message P "Error fetching UOM data: {0}" [exn_text e]))).

(** *** validate_integration_status *)

Definition expected_fields : list string :=
  ["custom_stock_qty"; "custom_stock_uom_rate"; "custom__people_qty"].

(** [SELECT fieldname, dt FROM `tabCustom Field` WHERE dt = 'Opportunity Item'
    AND fieldname IN (...)]. *)
Definition custom_fields_query (rows : list CustomField) : list CustomField :=
  List.filter
    (λ f, String.eqb (cf_dt f) "Opportunity Item" &&
          existsb (String.eqb (cf_fieldname f)) expected_fields)
    rows.

(** [frappe.get_all("Item", filters={"has_variants": 0}, ..., limit=5)]. *)
Definition sample_items_query (rows : list Item) : list Item :=
  take 5 (List.filter (λ i, item_has_variants i =? 0) rows).

(** [frappe.get_all("UOM Conversion Detail", filters={"parent": name}, ...)]. *)
Definition conversions_query (name : string) (rows : list UOMConversionDetail)
  : list UOMConversionDetail :=
  List.filter (λ d, String.eqb (ucd_parent d) name) rows.

(** The mutable [status_report] dictionary. *)
Record StatusReport : Type := {
  integration_status : string;
  checks : dict;
  warnings : list string;
  errors : list string;
}.

Definition report_val (r : StatusReport) : pyval :=
  VDict [("success", VBool true);
         ("integration_status", VStr (integration_status r));
         ("checks", VDict (checks r));
         ("warnings", VList (map VStr (warnings r)));
         ("errors", VList (map VStr (errors r)))].

Fixpoint uom_conversion_loop (P : Platform) (sample_items : list Item)
  : M (list pyval) :=
  match sample_items with
  | [] => mret []
  | item :: rest =>
      table ← lift (tabUOMConversionDetail P);
      let conversions := conversions_query (item_name item) table in
      status ← uom_conversion_loop P rest;
      mret (VDict [("item", VStr (item_name item));
                   ("stock_uom", VStr (item_stock_uom item));
                   ("conversions_count", VInt (Z.of_nat (length conversions)))]
            :: status)
  end.

(** [v == False]. *)
Definition eq_False (v : pyval) : bool :=
  match v with
  | VBool b => negb b
  | VInt z => z =? 0
  | VFloat f => PyFloat.eqb f PyFloat.zero
  | _ => false
  end.

(** [v.lower()]: only strings have it. *)
Definition py_lower_val (v : pyval) : result string :=
  match v with
  | VStr s => Ok (py_lower s)
  | _ => Raise (AttributeError (type_name v) "lower")
  end.

(** The inner [try] of the API end-point check: the report after it. *)
Definition api_endpoints_check (P : Platform) (r : StatusReport) : M StatusReport :=
  try_except
    (test_result ← get_item_uoms_and_conversion P "" None;
     success ← lift (py_get test_result "success" VNone);
     if eq_False success then
       msg ← lift (py_get test_result "message" (VStr ""));
       lowered ← lift (py_lower_val msg);
       if is_substring "required" lowered then
         mret {| integration_status := integration_status r;
                 checks := checks r ++ [("api_endpoints", VDict [("status", VStr "OK")])];
                 warnings := warnings r;
                 errors := errors r |}
       else
         mret {| integration_status := integration_status r;
                 checks := checks r;
                 warnings := warnings r ++ ["API endpoint validation inconclusive"];
                 errors := errors r |}
     else
       mret {| integration_status := integration_status r;
               checks := checks r;
               warnings := warnings r ++ ["API endpoint validation inconclusive"];
               errors := errors r |})
    (λ e,
       mret {| integration_status := integration_status r;
               checks := checks r;
               warnings := warnings r ++ ["API endpoint test failed: " +:+ exn_text e];
               errors := errors r |}).

Definition validate_integration_status_body (P : Platform) : M pyval :=
  allow_uom_conversion ← lift (allow_uom_with_conversion_rate_defined_in_item P);
  let checks1 :=
    [("stock_settings",
      VDict [("allow_uom_conversion", allow_uom_conversion); ("status", VStr "OK")])] in
  custom_field_rows ← lift (tabCustomField P);
  let custom_fields_check := custom_fields_query custom_field_rows in
  let found_fields := map cf_fieldname custom_fields_check in
  let missing_fields : gset string :=
    list_to_set expected_fields ∖ list_to_set found_fields in
  let is_missing := has_rows (elements missing_fields) in
  let errors1 :=
    if is_missing
    then ["Missing custom fields: " +:+ py_join ", " (elements missing_fields)]
    else [] in
  let status1 := if is_missing then "error" else "healthy" in
  let checks2 :=
    checks1 ++
    [("custom_fields",
      VDict [("expected", VList (map VStr expected_fields));
             ("found", VList (map VStr found_fields));
             ("missing", VList (map VStr (elements missing_fields)));
             ("status", VStr (if is_missing then "ERROR" else "OK"))])] in
  item_rows ← lift (tabItem P);
  let sample_items := sample_items_query item_rows in
  uom_conversion_status ← uom_conversion_loop P sample_items;
  let checks3 :=
    checks2 ++
    [("uom_conversions",
      VDict [("sample_items", VList uom_conversion_status); ("status", VStr "OK")])] in
  r ← api_endpoints_check P
        {| integration_status := status1; checks := checks3;
           warnings := []; errors := errors1 |};
  mret (report_val
          {| integration_status :=
               if has_rows (errors r) then "error"
               else if has_rows (warnings r) then "warning"
               else integration_status r;
             checks := checks r;
             warnings := warnings r;
             errors := errors r |}).

Definition validate_integration_status (P : Platform) : M pyval :=
  try_except (validate_integration_status_body P)
    (λ e,
       log_error ["Error in validate_integration_status: " +:+ exn_text e;
                  "Integration Validation Error"];;
       mret (VDict [("success", VBool false);
                    ("integration_status", VStr "error");
                    ("message",
                     VStr (message P "Error validating integration: {0}" [exn_text e]))])).

(** ** Reading a returned dictionary *)

Definition field (v : pyval) (key : string) : option pyval :=
  match v with
  | VDict d => dict_lookup d key
  | _ => None
  end.

(** ** What the specification says of one calculated row

    The inputs of a row, coerced by [flt] with the defaults of the source. *)

Section RowInputs.
Variable P : Platform.
Variable d : dict.

Definition in_qty : float := flt P (dict_get d "qty" (VInt 0)).
Definition in_rate : float := flt P (dict_get d "rate" (VInt 0)).
Definition in_conversion_factor : float :=
  flt P (dict_get d "conversion_factor" (VInt 1)).
Definition in_people_qty : float := flt P (dict_get d "custom__people_qty" (VInt 0)).

Definition in_stock_qty : float := PyFloat.mul in_qty in_conversion_factor.
Definition in_amount : float := PyFloat.mul in_stock_qty in_rate.

(** The three derived fields, with [stock_uom_rate] left to [rate_as]. *)
Definition row_fields (rate_as : pyval) (row : pyval) : Prop :=
  field row "stock_qty" = Some (VFloat in_stock_qty) ∧
  field row "amount" = Some (VFloat in_amount) ∧
  field row "stock_uom_rate" = Some rate_as ∧
  field row "custom__people_qty" = Some (VFloat in_people_qty).

(** As the specification words it: the quotient, for every row. *)
Definition row_as_stated (row : pyval) : Prop :=
  row_fields (VFloat (PyFloat.div in_rate in_conversion_factor)) row.

(** With the guard of the source: the quotient for a positive conversion
    factor, the integer [0] otherwise. *)
Definition row_as_guarded (row : pyval) : Prop :=
  row_fields
    (if PyFloat.is_positive in_conversion_factor
     then VFloat (PyFloat.div in_rate in_conversion_factor)
     else VInt 0)
    row.
End RowInputs.

(** The running sum [0 + x1 + x2 + ...] of a loop that starts at the integer [0]. *)
Definition running_sum (xs : list float) : num :=
  fold_left (λ acc x, num_add acc (NFloat x)) xs (NInt 0).

(** ** The fallback chain of the conversion factor *)

(** As the specification words it: the item's table, else the platform's
    lookup, else [1.0]. *)
Definition chain_as_stated (P : Platform) (item_code : string) (item : Item)
  (uom : string) : pyval :=
  match find (λ r, String.eqb (ucd_uom r) uom) (item_uoms item) with
  | Some r => VFloat (ucd_conversion_factor r)
  | None =>
      match get_conversion_factor P item_code uom with
      | Ok res =>
          match platform_factor res with
          | Some v => v
          | None => VFloat PyFloat.one
          end
      | Raise _ => VFloat PyFloat.one
      end
  end.

(** The chain behind its guards: the flag, the rows, a requested UOM, and
    the stock UOM answered before the platform is asked. *)
Definition chain_as_guarded (P : Platform) (item_code : string) (item : Item)
  (flag : pyval) (uom : option string) : pyval :=
  match uom with
  | Some u =>
      if truthy flag && has_rows (item_uoms item) && str_truthy u then
        match find (λ r, String.eqb (ucd_uom r) u) (item_uoms item) with
        | Some r => VFloat (ucd_conversion_factor r)
        | None =>
            if String.eqb u (item_stock_uom item) then VFloat PyFloat.one
            else
              match get_conversion_factor P item_code u with
              | Ok res =>
                  match platform_factor res with
                  | Some v => v
                  | None => VFloat PyFloat.one
                  end
              | Raise _ => VFloat PyFloat.one
              end
        end
      else VFloat PyFloat.one
  | None => VFloat PyFloat.one
  end.

(** The platform with another conversion-factor lookup. *)
Definition with_conversion_lookup (P : Platform)
  (lookup : string → string → result dict) : Platform :=
  {| translate := translate P;
     flt := flt P;
     getdate := getdate P;
     json_loads := json_loads P;
     str_float := str_float P;
     get_cached_doc := get_cached_doc P;
     allow_uom_with_conversion_rate_defined_in_item :=
       allow_uom_with_conversion_rate_defined_in_item P;
     get_conversion_factor := lookup;
     tabCustomField := tabCustomField P;
     tabItem := tabItem P;
     tabUOMConversionDetail := tabUOMConversionDetail P |}.

(** ** A sample site

    One item sold by the piece, the box and the pallet, on a platform
    whose [flt] reads numbers and takes everything else to [0.0]. *)

Module Sample.

Definition read_number (v : pyval) : float :=
  match v with
  | VFloat f => f
  | VInt z => PyFloat.of_Z z
  | VBool b => if b then PyFloat.one else PyFloat.zero
  | _ => PyFloat.zero
  end.

Definition digit (c : ascii) : option Z :=
  match digit_index c with
  | Some n => Some (Z.of_nat n)
  | None => None
  end.

Fixpoint number (acc : Z) (s : list ascii) : option Z :=
  match s with
  | [] => Some acc
  | c :: s' =>
      match digit c with
      | Some n => number (10 * acc + n) s'
      | None => None
      end
  end.

(** Dates written [YYYY-MM-DD]. *)
Definition iso_date (v : pyval) : result date :=
  match v with
  | VStr s =>
      match list_ascii_of_string s with
      | [y1; y2; y3; y4; "-"%char; m1; m2; "-"%char; d1; d2] =>
          match number 0 [y1; y2; y3; y4], number 0 [m1; m2], number 0 [d1; d2] with
          | Some y, Some m, Some d => Ok {| year := y; month := m; day := d |}
          | _, _, _ => Raise (Exn "ValueError" ("not a date: " +:+ s))
          end
      | _ => Raise (Exn "ValueError" ("not a date: " +:+ s))
      end
  | _ => Raise (Exn "ValueError" "not a date")
  end.

(** [str] of a float that holds an integer; other floats are not shown. *)
Definition show_float (f : float) : string :=
  match f with
  | S754_zero s => if s then "-0.0" else "0.0"
  | S754_finite s m e =>
      if 0 <=? e then
        (if s then "-" else "") +:+ pretty (Z.pos m * 2 ^ e) +:+ ".0"
      else if (Z.pos m mod 2 ^ (- e)) =? 0 then
        (if s then "-" else "") +:+ pretty (Z.pos m / 2 ^ (- e)) +:+ ".0"
      else "<float>"
  | S754_infinity s => if s then "-inf" else "inf"
  | S754_nan => "nan"
  end.

Definition rows : list UOMConversionDetail :=
  [ {| ucd_parent := "CAR-001"; ucd_uom := "Box";
       ucd_conversion_factor := PyFloat.of_Z 12 |};
    {| ucd_parent := "CAR-001"; ucd_uom := "Nos";
       ucd_conversion_factor := PyFloat.of_Z 1 |};
    {| ucd_parent := "CAR-001"; ucd_uom := "Pallet";
       ucd_conversion_factor := PyFloat.of_Z 480 |} ].

Definition car : Item :=
  {| item_name := "CAR-001"; item_stock_uom := "Nos"; item_has_variants := 0;
     item_uoms := rows |}.

Definition site (flag : pyval) (fields : list CustomField)
  (tr : string → string) : Platform :=
  {| translate := tr;
     flt := read_number;
     getdate := iso_date;
     json_loads := λ _, Raise (Exn "JSONDecodeError" "Expecting value");
     str_float := show_float;
     get_cached_doc := λ code,
       if String.eqb code "CAR-001" then Ok (Some car)
       else Raise (Exn "DoesNotExistError" ("Item " +:+ code +:+ " not found"));
     allow_uom_with_conversion_rate_defined_in_item := Ok flag;
     get_conversion_factor := λ _ _,
       Ok [("conversion_factor", VFloat (PyFloat.of_Z 7))];
     tabCustomField := Ok fields;
     tabItem := Ok [car];
     tabUOMConversionDetail := Ok rows |}.

Definition all_fields : list CustomField :=
  [ {| cf_fieldname := "custom_stock_qty"; cf_dt := "Opportunity Item" |};
    {| cf_fieldname := "custom_stock_uom_rate"; cf_dt := "Opportunity Item" |};
    {| cf_fieldname := "custom__people_qty"; cf_dt := "Opportunity Item" |} ].

(** The site with the flag on, every custom field and no translation. *)
Definition on : Platform := site (VInt 1) all_fields id.
(** The same site with the flag off. *)
Definition off : Platform := site (VInt 0) all_fields id.
(** The site without the [custom__people_qty] field. *)
Definition incomplete : Platform := site (VInt 1) (take 2 all_fields) id.
(** The site of a user who reads French. *)
Definition french : Platform :=
  site (VInt 1) all_fields
    (λ s, if String.eqb s "Item Code is required"
          then "Le code article est obligatoire" else s).

(** A line sold at 4.0 with the conversion factor -2.0. *)
Definition negative_line : dict :=
  [("item_code", VStr "CAR-001"); ("qty", VFloat (PyFloat.of_Z 3));
   ("rate", VFloat (PyFloat.of_Z 4));
   ("conversion_factor", VFloat (PyFloat.of_Z (-2)))].

(** A line of 3 boxes of 12 at 4.0 for 5 people. *)
Definition box_line : dict :=
  [("item_code", VStr "CAR-001"); ("qty", VInt 3); ("rate", VInt 4);
   ("conversion_factor", VInt 12); ("custom__people_qty", VInt 5)].

(** An opportunity whose dates are in order, with one event inside it. *)
Definition ordered_opportunity : dict :=
  [("custom_opportunity_start_date", VStr "2025-01-01");
   ("expected_closing", VStr "2025-01-31");
   ("custom_opportunity_people_qty", VInt 10);
   ("items",
    VList [VDict [("custom_event_start_date", VStr "2025-01-10");
                  ("custom_event_end_date", VStr "2025-01-12");
                  ("custom__people_qty", VInt 4)]])].

(** An opportunity that closes before it starts. *)
Definition reversed_opportunity : dict :=
  [("custom_opportunity_start_date", VStr "2025-02-01");
   ("expected_closing", VStr "2025-01-31");
   ("items", VList [])].

(** An opportunity for 10 people whose single event takes 25. *)
Definition crowded_opportunity : dict :=
  [("custom_opportunity_people_qty", VInt 10);
   ("items", VList [VDict [("custom__people_qty", VInt 25)]])].

End Sample.

(** The row appended for an item dictionary. *)
Definition calc_row (P : Platform) (d : dict) : pyval :=
  VDict [("item_code", dict_get d "item_code" VNone);
         ("qty", VFloat (in_qty P d));
         ("rate", VFloat (in_rate P d));
         ("conversion_factor", VFloat (in_conversion_factor P d));
         ("stock_qty", VFloat (in_stock_qty P d));
         ("amount", VFloat (in_amount P d));
         ("stock_uom_rate",
          if PyFloat.is_positive (in_conversion_factor P d)
          then VFloat (PyFloat.div (in_rate P d) (in_conversion_factor P d))
          else VInt 0);
         ("custom__people_qty", VFloat (in_people_qty P d))].

(** The dictionaries the two UOM lookups return on success. *)
Definition with_conversion_result (item_code : string) (item : Item) (flag : pyval)
  (uoms : list UomEntry) : pyval :=
  VDict [("success", VBool true);
         ("item_code", VStr item_code);
         ("stock_uom", VStr (item_stock_uom item));
         ("uoms", VList (map entry_val uoms));
         ("default_uom", VStr (item_stock_uom item));
         ("allow_uom_conversion", if truthy flag then flag else VBool false)].

Definition and_conversion_result (item : Item) (flag : pyval)
  (uoms : list UomEntry) (conversion_factor : pyval) : pyval :=
  VDict [("success", VBool true);
         ("uoms", VList (map entry_val uoms));
         ("conversion_factor", conversion_factor);
         ("stock_uom", VStr (item_stock_uom item));
         ("allow_custom_uom", flag)].

(** The rows of an item as [uoms] entries, in the order of its table. *)
Definition item_entries (item : Item) : list UomEntry :=
  map (detail_entry (item_stock_uom item)) (item_uoms item).

(** Whether a row is the one of the item's stock UOM. *)
Definition is_stock_row (item : Item) (r : UOMConversionDetail) : bool :=
  String.eqb (ucd_uom r) (item_stock_uom item).

(** ** What a caller sees of an exception

    The body raised [e] with the error log at [log]: the function returns
    a dictionary with [success] false and the message built from [tpl]
    and [str(e)], and the log has one more entry, whose first argument is
    [label] followed by [str(e)]. *)
Definition reported (P : Platform) (label : string) (more : list string)
  (tpl : string) (e : exn) (log : error_log) (out : result pyval * error_log) : Prop :=
  ∃ d,
    out = (Ok (VDict d), log ++ [(label +:+ exn_text e) :: more])
    ∧ is_substring (exn_text e) (label +:+ exn_text e) = true
    ∧ dict_lookup d "success" = Some (VBool false)
    ∧ dict_lookup d "message" = Some (VStr (message P tpl [exn_text e]))
    ∧ (is_substring "{0}" (translate P tpl) = true →
       is_substring (exn_text e) (message P tpl [exn_text e]) = true).

(** The function returned a dictionary to its caller. *)
Definition returns_dict (out : result pyval * error_log) : Prop :=
  ∃ d log', out = (Ok (VDict d), log').

(** A body either raises or yields a dictionary. *)
Definition dict_or_raise (out : result pyval * error_log) : Prop :=
  match out with
  | (Ok v, _) => ∃ d, v = VDict d
  | (Raise _, _) => True
  end.

(** ** validate_opportunity_data as it runs, and with [flt] imported

    The failure every call on a dictionary ends in, and the scope the
    function would have with [flt] among its imports, as
    [get_opportunity_calculations] has it. *)
Definition flt_name_error : exn := NameError "flt".

Definition validation_failure (P : Platform) : pyval :=
  failure (message P "Error validating data: {0}" [exn_text flt_name_error]).

Definition validation_log_entry : log_entry :=
  ["Error in validate_opportunity_data: " +:+ exn_text flt_name_error].

Definition validation_imports_with_flt : list string := "flt" :: validation_imports.

(** ** The integration report, by its parts *)

(** The expected fields that the custom-fields query did not return. *)
Definition missing_fields_of (fields : list CustomField) : gset string :=
  list_to_set expected_fields
  ∖ list_to_set (map cf_fieldname (custom_fields_query fields)).

(** The entry of the report for one sample item. *)
Definition conversion_status (table : list UOMConversionDetail) (item : Item) : pyval :=
  VDict [("item", VStr (item_name item));
         ("stock_uom", VStr (item_stock_uom item));
         ("conversions_count",
          VInt (Z.of_nat (length (conversions_query (item_name item) table))))].

(** Whether the answer to an empty item code mentions [required]. *)
Definition api_endpoints_answer (P : Platform) : bool :=
  is_substring "required" (py_lower (message P "Item Code is required" [])).

(** ** hooks.py

    The application's hooks: the client script attached to a document
    type, and the fixtures exported with the application.  A fixture with
    the filter [{"dt": ["in", dts]}] selects the documents of its doctype
    whose [dt] is one of [dts]. *)

Definition app_name : string := "qutel_car_events".

Definition doctype_js : list (string * string) :=
  [("Opportunity", "public/js/opportunity_custom.js")].

Record Fixture : Type := {
  fixture_doctype : string;
  fixture_dt_in : list string;
}.

Definition fixtures : list Fixture :=
  [ {| fixture_doctype := "Custom Field";
       fixture_dt_in := ["Opportunity"; "Opportunity Item"] |} ].

(** Whether a fixture selects a row of [tabCustom Field]. *)
Definition fixture_selects (fx : Fixture) (row : CustomField) : bool :=
  String.eqb (fixture_doctype fx) "Custom Field" &&
  existsb (String.eqb (cf_dt row)) (fixture_dt_in fx).

(** The custom fields the fixtures export. *)
Definition exported_custom_fields (rows : list CustomField) : list CustomField :=
  List.filter (λ row, existsb (λ fx, fixture_selects fx row) fixtures) rows.

(** ** More readings of inputs and results *)

(** [isinstance(v, list)] and [isinstance(v, dict)]. *)
Definition is_list (v : pyval) : bool :=
  match v with
  | VList _ => true
  | _ => false
  end.

Definition is_dict (v : pyval) : bool :=
  match v with
  | VDict _ => true
  | _ => false
  end.

(** Two platforms that word their messages alike. *)
Definition same_messages (P Q : Platform) : Prop :=
  ∀ s, translate P s = translate Q s.

(** The requested UOM is answered from the item alone: none requested, a
    row of the item's table, or the item's stock UOM. *)
Definition answered_by_item (item : Item) (uom : option string) : bool :=
  match uom with
  | None => true
  | Some u =>
      negb (str_truthy u)
      || existsb (λ r, String.eqb (ucd_uom r) u) (item_uoms item)
      || String.eqb u (item_stock_uom item)
  end.

(** The successful result of [get_uom_conversion_factor]. *)
Definition conversion_factor_result (item_code uom : string) (cf : pyval) : pyval :=
  VDict [("success", VBool true);
         ("item_code", VStr item_code);
         ("uom", VStr uom);
         ("conversion_factor", cf)].

(** A call left the error log alone, or added one entry to it and
    returned a dictionary whose [success] is false. *)
Definition logs_only_failure (log : error_log) (out : result pyval * error_log) : Prop :=
  snd out = log
  ∨ ∃ entry r, out = (Ok r, log ++ [entry]) ∧ field r "success" = Some (VBool false).

(** A computation that never touches the error log. *)
Definition keeps_log {A : Type} (m : M A) : Prop := ∀ log, snd (m log) = log.

(** The failure report of [validate_integration_status]. *)
Definition integration_failure (P : Platform) (e : exn) : pyval :=
  VDict [("success", VBool false);
         ("integration_status", VStr "error");
         ("message", VStr (message P "Error validating integration: {0}" [exn_text e]))].

(** The first query of [validate_integration_status] that raises, in the
    order the function makes them; the conversions table is read once per
    sample item. *)
Definition first_failing_query (P : Platform) : option exn :=
  match allow_uom_with_conversion_rate_defined_in_item P with
  | Raise e => Some e
  | Ok _ =>
      match tabCustomField P with
      | Raise e => Some e
      | Ok _ =>
          match tabItem P with
          | Raise e => Some e
          | Ok items =>
              match sample_items_query items, tabUOMConversionDetail P with
              | _ :: _, Raise e => Some e
              | _, _ => None
              end
          end
      end
  end.

(** A second sample item, sold by the box and the pallet only: its stock
    UOM has no row in its table. *)
Module Sample2.

Definition rows : list UOMConversionDetail :=
  [ {| ucd_parent := "CAR-002"; ucd_uom := "Box";
       ucd_conversion_factor := PyFloat.of_Z 12 |};
    {| ucd_parent := "CAR-002"; ucd_uom := "Pallet";
       ucd_conversion_factor := PyFloat.of_Z 480 |} ].

Definition car : Item :=
  {| item_name := "CAR-002"; item_stock_uom := "Nos"; item_has_variants := 1;
     item_uoms := rows |}.

(** A site that holds only this item, a template with variants, and
    whose conversions table cannot be read. *)
Definition site : Platform :=
  {| translate := id;
     flt := Sample.read_number;
     getdate := Sample.iso_date;
     json_loads := λ _, Raise (Exn "JSONDecodeError" "Expecting value");
     str_float := Sample.show_float;
     get_cached_doc := λ code,
       if String.eqb code "CAR-002" then Ok (Some car)
       else Raise (Exn "DoesNotExistError" ("Item " +:+ code +:+ " not found"));
     allow_uom_with_conversion_rate_defined_in_item := Ok (VInt 1);
     get_conversion_factor := λ _ _, Ok [];
     tabCustomField := Ok Sample.all_fields;
     tabItem := Ok [car];
     tabUOMConversionDetail := Raise (Exn "OperationalError" "table is locked") |}.

End Sample2.

(** The platform with a document store that returns no item. *)
Definition without_documents (P : Platform) : Platform :=
  {| translate := translate P;
     flt := flt P;
     getdate := getdate P;
     json_loads := json_loads P;
     str_float := str_float P;
     get_cached_doc := λ _, Ok None;
     allow_uom_with_conversion_rate_defined_in_item :=
       allow_uom_with_conversion_rate_defined_in_item P;
     get_conversion_factor := get_conversion_factor P;
     tabCustomField := tabCustomField P;
     tabItem := tabItem P;
     tabUOMConversionDetail := tabUOMConversionDetail P |}.

(** * Properties *)

(** ** Floats: what a comparison with zero tells *)

Lemma zero_is_plus_zero : PyFloat.zero = S754_zero false.
Proof. reflexivity. Qed.

Lemma positive_not_zero (x : float) :
  PyFloat.is_positive x = true → PyFloat.eqb x PyFloat.zero = false.
Proof.
  unfold PyFloat.is_positive, PyFloat.ltb, PyFloat.eqb, SFltb, SFeqb.
  rewrite zero_is_plus_zero.
  destruct x as [s | s | | s m e]; simpl; try discriminate;
    destruct s; simpl; congruence.
Qed.

Lemma nonpositive_not_positive (x : float) :
  PyFloat.leb x PyFloat.zero = true → PyFloat.is_positive x = false.
Proof.
  unfold PyFloat.is_positive, PyFloat.ltb, PyFloat.leb, SFltb, SFleb.
  rewrite zero_is_plus_zero.
  destruct x as [s | s | | s m e]; simpl; try discriminate; try reflexivity;
    destruct s; simpl; congruence.
Qed.

Lemma num_gt_zero (x : float) :
  num_gt (NFloat x) (NInt 0) = PyFloat.is_positive x.
Proof. reflexivity. Qed.

(** ** Names in scope *)

Lemma flt_bound_in_calculations : load_name calculations_imports "flt" = Ok tt.
Proof. reflexivity. Qed.

Lemma flt_unbound_in_validation :
  load_name validation_imports "flt" = Raise (NameError "flt").
Proof. reflexivity. Qed.

(** ** get_opportunity_calculations *)

Lemma call_flt_calculations (P : Platform) (d : dict) (key : string) (default : pyval) :
  call_flt calculations_imports P (py_get (VDict d) key default)
  = Ok (flt P (dict_get d key default)).
Proof. reflexivity. Qed.

(** The conditional expression that computes [stock_uom_rate]. *)
Lemma guarded_quotient (rate cf : float) :
  (if num_gt (NFloat cf) (NInt 0)
   then q ← py_truediv rate cf; Ok (VFloat q)
   else Ok (VInt 0))
  = Ok (if PyFloat.is_positive cf then VFloat (PyFloat.div rate cf) else VInt 0).
Proof.
  rewrite num_gt_zero.
  destruct (PyFloat.is_positive cf) eqn:Hpos; [|reflexivity].
  unfold py_truediv. rewrite (positive_not_zero _ Hpos). reflexivity.
Qed.

Lemma calc_step_dict (P : Platform) (st : CalcState) (d : dict) :
  calc_step calculations_imports P st (VDict d)
  = Ok {| calc_results := calc_results st ++ [calc_row P d];
          calc_total_people := num_add (calc_total_people st) (NFloat (in_people_qty P d));
          calc_total_amount := num_add (calc_total_amount st) (NFloat (in_amount P d)) |}.
Proof.
  unfold calc_step.
  rewrite !call_flt_calculations. cbn [py_get mbind result_bind].
  rewrite guarded_quotient. reflexivity.
Qed.

Lemma calc_loop_dicts (P : Platform) (ds : list dict) (st : CalcState) :
  calc_loop calculations_imports P (map VDict ds) st
  = Ok {| calc_results := calc_results st ++ map (calc_row P) ds;
          calc_total_people :=
            fold_left (λ acc x, num_add acc (NFloat x)) (map (in_people_qty P) ds)
              (calc_total_people st);
          calc_total_amount :=
            fold_left (λ acc x, num_add acc (NFloat x)) (map (in_amount P) ds)
              (calc_total_amount st) |}.
Proof.
  revert st. induction ds as [|d ds IH]; intros st.
  - destruct st. cbn. rewrite app_nil_r. reflexivity.
  - cbn [map calc_loop]. rewrite calc_step_dict. cbn [mbind result_bind].
    rewrite IH. cbn [calc_results calc_total_people calc_total_amount fold_left].
    rewrite <- app_assoc. reflexivity.
Qed.

Lemma calc_row_guarded (P : Platform) (d : dict) : row_as_guarded P d (calc_row P d).
Proof. repeat split. Qed.

Lemma calc_rows_guarded (P : Platform) (ds : list dict) :
  Forall2 (row_as_guarded P) ds (map (calc_row P) ds).
Proof.
  induction ds as [|d ds IH]; constructor; [apply calc_row_guarded | exact IH].
Qed.

(** C1 (as amended): for every list of item dictionaries, given as such
    or as the JSON text that [json.loads] reads into it,
    [get_opportunity_calculations] succeeds without logging, and its result
    holds, for each input item in order, a row with
    [stock_qty = qty * conversion_factor], [amount = stock_qty * rate] and
    [stock_uom_rate = rate / conversion_factor] when the conversion factor
    is positive and the integer [0] otherwise (inputs coerced by [flt],
    missing [qty] and [rate] defaulting to [0], missing [conversion_factor]
    to [1]); [total_amount] and [total_people_qty] are the running sums of
    the rows' [amount] and [custom__people_qty]. *)
Theorem calculations_rows_and_totals (P : Platform) (ds : list dict) (log : error_log) :
  ∃ rows,
    get_opportunity_calculations P (VList (map VDict ds)) log
    = (Ok (VDict [("success", VBool true);
                  ("items", VList rows);
                  ("total_people_qty", num_val (running_sum (map (in_people_qty P) ds)));
                  ("total_amount", num_val (running_sum (map (in_amount P) ds)))]),
       log)
    ∧ (∀ text,
         json_loads P text = Ok (VList (map VDict ds)) →
         get_opportunity_calculations P (VStr text) log
         = get_opportunity_calculations P (VList (map VDict ds)) log)
    ∧ Forall2 (row_as_guarded P) ds rows.
Proof.
  exists (map (calc_row P) ds). split; [|split; [|apply calc_rows_guarded]].
  - unfold get_opportunity_calculations, try_except, lift,
      get_opportunity_calculations_body.
    cbn [loads_if_str mbind result_bind].
    rewrite calc_loop_dicts. reflexivity.
  - intros text Htext.
    unfold get_opportunity_calculations, get_opportunity_calculations_body.
    cbn [loads_if_str]. change (load_name calculations_imports "json") with (Ok tt).
    cbn [mbind result_bind]. rewrite Htext. reflexivity.
Qed.

(** Three boxes of twelve at 4.0 for five people: 36 pieces, 144.0 in
    all, a third of 4.0 per piece. *)
Lemma calculations_on_box_line :
  get_opportunity_calculations Sample.on (VList [VDict Sample.box_line]) []
  = (Ok (VDict [("success", VBool true);
                ("items",
                 VList [VDict [("item_code", VStr "CAR-001");
                               ("qty", VFloat (PyFloat.of_Z 3));
                               ("rate", VFloat (PyFloat.of_Z 4));
                               ("conversion_factor", VFloat (PyFloat.of_Z 12));
                               ("stock_qty", VFloat (PyFloat.of_Z 36));
                               ("amount", VFloat (PyFloat.of_Z 144));
                               ("stock_uom_rate",
                                VFloat (PyFloat.div (PyFloat.of_Z 1) (PyFloat.of_Z 3)));
                               ("custom__people_qty", VFloat (PyFloat.of_Z 5))]]);
                ("total_people_qty", VFloat (PyFloat.of_Z 5));
                ("total_amount", VFloat (PyFloat.of_Z 144))]),
     []).
Proof. vm_compute. reflexivity. Qed.

(** C1, as stated, fails: a line sold at 4.0 with the conversion factor
    -2.0 gets [stock_uom_rate = 0], while [rate / conversion_factor] is
    -2.0. *)
Lemma calculations_quotient_counterexample :
  ∃ row,
    get_opportunity_calculations Sample.on (VList [VDict Sample.negative_line]) []
    = (Ok (VDict [("success", VBool true);
                  ("items", VList [row]);
                  ("total_people_qty", VFloat PyFloat.zero);
                  ("total_amount", VFloat (PyFloat.of_Z (-24)))]),
       [])
    ∧ field row "stock_uom_rate" = Some (VInt 0)
    ∧ PyFloat.div (in_rate Sample.on Sample.negative_line)
        (in_conversion_factor Sample.on Sample.negative_line) = PyFloat.of_Z (-2)
    ∧ ¬ row_as_stated Sample.on Sample.negative_line row.
Proof.
  eexists. split; [vm_compute; reflexivity|].
  split; [reflexivity|]. split; [vm_compute; reflexivity|].
  intros (_ & _ & Hrate & _). vm_compute in Hrate. discriminate Hrate.
Qed.

(** C2: in [get_opportunity_calculations] the step for an item never
    raises; its quotient [rate / conversion_factor] is taken, and is
    defined, when the conversion factor is positive; for a conversion
    factor that is zero or negative (or not positive in any other way)
    [stock_uom_rate] is the integer [0]; and a row that holds a quotient
    had a positive divisor. *)
Theorem division_only_by_positive_factor (P : Platform) (st : CalcState) (d : dict) :
  ∃ st' row,
    calc_step calculations_imports P st (VDict d) = Ok st'
    ∧ last (calc_results st') = Some row
    ∧ (PyFloat.is_positive (in_conversion_factor P d) = true →
       py_truediv (in_rate P d) (in_conversion_factor P d)
       = Ok (PyFloat.div (in_rate P d) (in_conversion_factor P d))
       ∧ field row "stock_uom_rate"
         = Some (VFloat (PyFloat.div (in_rate P d) (in_conversion_factor P d))))
    ∧ (PyFloat.leb (in_conversion_factor P d) PyFloat.zero = true →
       field row "stock_uom_rate" = Some (VInt 0))
    ∧ (PyFloat.is_positive (in_conversion_factor P d) = false →
       field row "stock_uom_rate" = Some (VInt 0))
    ∧ (∀ q, field row "stock_uom_rate" = Some (VFloat q) →
       PyFloat.is_positive (in_conversion_factor P d) = true).
Proof.
  eexists. exists (calc_row P d). rewrite calc_step_dict.
  split; [reflexivity|]. split; [apply last_snoc|].
  assert (Hnot : PyFloat.is_positive (in_conversion_factor P d) = false →
                 field (calc_row P d) "stock_uom_rate" = Some (VInt 0)).
  { intros H. cbn. rewrite H. reflexivity. }
  repeat split.
  - unfold py_truediv. rewrite (positive_not_zero _ H). reflexivity.
  - cbn. rewrite H. reflexivity.
  - intros H. apply Hnot, nonpositive_not_positive, H.
  - exact Hnot.
  - intros q. cbn.
    destruct (PyFloat.is_positive (in_conversion_factor P d)); [reflexivity|discriminate].
Qed.

(** ** [sorted] on a boolean key *)

Section SortedFacts.
Context {A : Type} (key : A → bool).

Lemma insert_sorted_false (x : A) (l : list A) :
  key x = false → insert_sorted key x l = x :: l.
Proof.
  intros Hx. destruct l as [|y l]; [reflexivity|].
  cbn. unfold key_le. rewrite Hx. reflexivity.
Qed.

Lemma insert_sorted_true (x : A) (fs ts : list A) :
  key x = true →
  Forall (λ y, key y = false) fs →
  Forall (λ y, key y = true) ts →
  insert_sorted key x (fs ++ ts) = fs ++ x :: ts.
Proof.
  intros Hx Hfs Hts. induction Hfs as [|y fs Hy _ IH]; cbn.
  - destruct Hts as [|y ts Hy _]; [reflexivity|].
    cbn. unfold key_le. rewrite Hx, Hy. reflexivity.
  - unfold key_le. rewrite Hx, Hy. cbn. rewrite IH. reflexivity.
Qed.

Lemma filter_all (f : A → bool) (l : list A) :
  Forall (λ y, f y = true) (List.filter f l).
Proof.
  apply List.Forall_forall. intros y Hy. apply List.filter_In in Hy. apply Hy.
Qed.

Lemma filter_none (l : list A) :
  Forall (λ y, key y = false) (List.filter (λ y, negb (key y)) l).
Proof.
  apply List.Forall_forall. intros y Hy. apply List.filter_In in Hy.
  destruct Hy as [_ Hy]. apply negb_true_iff in Hy. exact Hy.
Qed.

(** The stable ascending sort puts the [False] keys first, each group in
    its original order. *)
Lemma stable_sort_partition (l : list A) :
  stable_sort key l = List.filter (λ y, negb (key y)) l ++ List.filter key l.
Proof.
  induction l as [|x l IH]; [reflexivity|].
  change (stable_sort key (x :: l)) with (insert_sorted key x (stable_sort key l)).
  rewrite IH. cbn [List.filter]. destruct (key x) eqn:Hx; cbn [negb].
  - apply insert_sorted_true; [exact Hx | apply filter_none | apply filter_all].
  - apply insert_sorted_false, Hx.
Qed.

(** [sorted(l, key=key, reverse=True)]: the [True] keys first, each group
    in its original order. *)
Lemma py_sorted_reverse_partition (l : list A) :
  py_sorted key true l = List.filter key l ++ List.filter (λ y, negb (key y)) l.
Proof.
  unfold py_sorted. rewrite stable_sort_partition, rev_app_distr.
  rewrite !List.filter_rev, !rev_involutive. reflexivity.
Qed.

Lemma partition_permutation (f : A → bool) (l : list A) :
  Permutation (List.filter f l ++ List.filter (λ y, negb (f y)) l) l.
Proof.
  induction l as [|x l IH]; [constructor|].
  cbn [List.filter]. destruct (f x); cbn [negb].
  - cbn. constructor. exact IH.
  - symmetry. apply Permutation_cons_app. symmetry. exact IH.
Qed.
End SortedFacts.

(** ** The two UOM lookups *)

Lemma filter_of_map {A B : Type} (f : B → bool) (g : A → B) (l : list A) :
  List.filter f (map g l) = map g (List.filter (λ x, f (g x)) l).
Proof.
  induction l as [|x l IH]; [reflexivity|].
  cbn [map List.filter]. rewrite IH. destruct (f (g x)); reflexivity.
Qed.

Section Lookups.
Variable P : Platform.
Variable item_code : string.
Variable item : Item.
Variable flag : pyval.
Hypothesis Hcode : str_truthy item_code = true.
Hypothesis Hdoc : get_cached_doc P item_code = Ok (Some item).
Hypothesis Hflag : allow_uom_with_conversion_rate_defined_in_item P = Ok flag.

Lemma with_conversion_eval (log : error_log) :
  get_item_uoms_with_conversion P item_code log
  = (Ok (with_conversion_result item_code item flag
           (if truthy flag && has_rows (item_uoms item)
            then py_sorted entry_is_stock_uom true
                   (map (detail_entry (item_stock_uom item)) (item_uoms item))
            else [stock_entry (item_stock_uom item)])),
     log).
Proof.
  unfold get_item_uoms_with_conversion, get_item_uoms_with_conversion_body.
  rewrite Hcode. cbn [negb].
  unfold try_except, mbind, M_bind, bind, lift, mret, M_ret, ret.
  rewrite Hdoc, Hflag. reflexivity.
Qed.

Lemma and_conversion_eval (uom : option string) (log : error_log) :
  get_item_uoms_and_conversion P item_code uom log
  = if truthy flag && has_rows (item_uoms item) then
      match search_conversion_factor P item_code item uom with
      | Ok v => (Ok (and_conversion_result item flag (item_entries item) v), log)
      | Raise e =>
          (Ok (failure_uoms (message P "Error fetching UOM data: {0}" [exn_text e])),
           log ++ [["Error in get_item_uoms_and_conversion: " +:+ exn_text e;
                    "UOM Helper Error"]])
      end
    else
      (Ok (and_conversion_result item flag [stock_entry (item_stock_uom item)]
             (VFloat PyFloat.one)), log).
Proof.
  unfold get_item_uoms_and_conversion, get_item_uoms_and_conversion_body.
  rewrite Hcode. cbn [negb].
  unfold try_except, mbind, M_bind, bind, lift, mret, M_ret, ret, log_error.
  rewrite Hdoc, Hflag.
  destruct (truthy flag && has_rows (item_uoms item)).
  - destruct (search_conversion_factor P item_code item uom); reflexivity.
  - destruct (negb (opt_str_truthy uom) || opt_str_eqb uom (item_stock_uom item));
      reflexivity.
Qed.

Lemma search_is_guarded_chain (uom : option string) :
  truthy flag && has_rows (item_uoms item) = true →
  match search_conversion_factor P item_code item uom with
  | Ok v => v = chain_as_guarded P item_code item flag uom
  | Raise e =>
      chain_as_guarded P item_code item flag uom = VFloat PyFloat.one
      ∧ ∃ u, uom = Some u ∧ get_conversion_factor P item_code u = Raise e
  end.
Proof.
  intros Hon. unfold search_conversion_factor, chain_as_guarded. rewrite Hon.
  destruct uom as [u|]; [|reflexivity]. cbn [andb].
  destruct (str_truthy u); [|reflexivity].
  destruct (find _ (item_uoms item)); [reflexivity|].
  destruct (String.eqb u (item_stock_uom item)); [reflexivity|].
  destruct (get_conversion_factor P item_code u) as [res|e] eqn:Hres; cbn.
  - destruct (platform_factor res); reflexivity.
  - split; [reflexivity|]. exists u. split; [reflexivity|exact Hres].
Qed.


(** C10: with the Stock Settings flag off, or no UOM rows on the item,
    [get_item_uoms_and_conversion] returns the conversion factor [1.0] for
    every requested UOM, the item's stock UOM or another, whatever the
    platform's conversion lookup would answer: it is not consulted. *)
Theorem conversion_factor_one_without_item_table (uom : option string) (log : error_log) :
  truthy flag && has_rows (item_uoms item) = false →
  get_item_uoms_and_conversion P item_code uom log
  = (Ok (and_conversion_result item flag [stock_entry (item_stock_uom item)]
           (VFloat PyFloat.one)), log)
  ∧ ∀ lookup,
      get_item_uoms_and_conversion (with_conversion_lookup P lookup) item_code uom log
      = get_item_uoms_and_conversion P item_code uom log.
Proof.
  intros Hoff. split.
  - rewrite and_conversion_eval, Hoff. reflexivity.
  - intros lookup.
    unfold get_item_uoms_and_conversion, get_item_uoms_and_conversion_body.
    rewrite Hcode. cbn [negb].
    unfold try_except, mbind, M_bind, bind, lift, mret, M_ret, ret, log_error.
    cbn [with_conversion_lookup get_cached_doc
         allow_uom_with_conversion_rate_defined_in_item translate].
    rewrite Hdoc, Hflag, Hoff. reflexivity.
Qed.

(** C6: when UOM conversion is allowed and the item has UOM rows, the
    [uoms] of [get_item_uoms_with_conversion] are the item's rows sorted
    by [is_stock_uom], descending and stably: the rows of the stock UOM in
    the order of the item's table, then the other rows in the order of
    the item's table. *)
Theorem uoms_sorted_stock_first (log : error_log) :
  truthy flag && has_rows (item_uoms item) = true →
  get_item_uoms_with_conversion P item_code log
  = (Ok (with_conversion_result item_code item flag
           (map (detail_entry (item_stock_uom item))
              (List.filter (is_stock_row item) (item_uoms item))
            ++ map (detail_entry (item_stock_uom item))
                 (List.filter (λ r, negb (is_stock_row item r)) (item_uoms item)))),
     log)
  ∧ Forall (λ e, entry_is_stock_uom e = true)
      (map (detail_entry (item_stock_uom item))
         (List.filter (is_stock_row item) (item_uoms item)))
  ∧ Forall (λ e, entry_is_stock_uom e = false)
      (map (detail_entry (item_stock_uom item))
         (List.filter (λ r, negb (is_stock_row item r)) (item_uoms item))).
Proof.
  intros Hon. split; [|split].
  - rewrite with_conversion_eval, Hon, py_sorted_reverse_partition.
    rewrite !filter_of_map. reflexivity.
  - apply List.Forall_forall. intros e He. apply List.in_map_iff in He.
    destruct He as (r & <- & Hr). apply List.filter_In in Hr. apply Hr.
  - apply List.Forall_forall. intros e He. apply List.in_map_iff in He.
    destruct He as (r & <- & Hr). apply List.filter_In in Hr.
    destruct Hr as [_ Hr]. apply negb_true_iff in Hr. exact Hr.
Qed.

End Lookups.



(** The sample item, flag off: a box is answered with [1.0] whatever the
    platform's lookup says. *)
Lemma conversion_factor_one_without_item_table_witness :
  get_item_uoms_and_conversion Sample.off "CAR-001" (Some "Box") []
  = (Ok (and_conversion_result Sample.car (VInt 0) [stock_entry "Nos"]
           (VFloat PyFloat.one)), [])
  ∧ ∀ lookup,
      get_item_uoms_and_conversion (with_conversion_lookup Sample.off lookup)
        "CAR-001" (Some "Box") []
      = get_item_uoms_and_conversion Sample.off "CAR-001" (Some "Box") [].
Proof.
  exact (conversion_factor_one_without_item_table Sample.off "CAR-001" Sample.car (VInt 0)
           eq_refl eq_refl eq_refl (Some "Box") [] eq_refl).
Defined.

(** The sample item, flag on: the piece first, then box and pallet. *)
Lemma uoms_sorted_stock_first_witness :
  get_item_uoms_with_conversion Sample.on "CAR-001" []
  = (Ok (with_conversion_result "CAR-001" Sample.car (VInt 1)
           [ {| entry_uom := "Nos"; entry_conversion_factor := PyFloat.of_Z 1;
                entry_is_stock_uom := true |};
             {| entry_uom := "Box"; entry_conversion_factor := PyFloat.of_Z 12;
                entry_is_stock_uom := false |};
             {| entry_uom := "Pallet"; entry_conversion_factor := PyFloat.of_Z 480;
                entry_is_stock_uom := false |} ]), []).
Proof.
  exact (proj1 (uoms_sorted_stock_first Sample.on "CAR-001" Sample.car (VInt 1)
                  eq_refl eq_refl eq_refl [] eq_refl)).
Defined.


(** ** Strings: where the text of an exception ends up *)

Lemma is_substring_unfold (needle hay : string) :
  is_substring needle hay
  = starts_with needle hay ||
    match hay with
    | EmptyString => false
    | String _ rest => is_substring needle rest
    end.
Proof. destruct hay; reflexivity. Qed.

Lemma starts_with_cons (a b : ascii) (needle hay : string) :
  starts_with (String a needle) (String b hay) = true ↔ a = b ∧ starts_with needle hay = true.
Proof.
  change (starts_with (String a needle) (String b hay))
    with (Ascii.eqb a b && starts_with needle hay).
  rewrite andb_true_iff, Ascii.eqb_eq. reflexivity.
Qed.

Lemma starts_with_app (s t : string) : starts_with s (s +:+ t) = true.
Proof.
  induction s as [|a s IH]; [reflexivity|].
  change (String a s +:+ t) with (String a (s +:+ t)).
  apply starts_with_cons. split; [reflexivity | exact IH].
Qed.

Lemma is_substring_prefix (s t : string) : is_substring s (s +:+ t) = true.
Proof. rewrite is_substring_unfold, starts_with_app. reflexivity. Qed.

Lemma is_substring_cons (s t : string) (c : ascii) :
  is_substring s t = true → is_substring s (String c t) = true.
Proof.
  intros H. rewrite is_substring_unfold, H. apply orb_true_r.
Qed.

Lemma is_substring_app_r (label s : string) : is_substring s (label +:+ s) = true.
Proof.
  induction label as [|c label IH].
  - change ("" +:+ s) with s. rewrite is_substring_unfold.
    assert (starts_with s s = true) as ->; [|reflexivity].
    induction s as [|a s IHs]; [reflexivity|].
    apply starts_with_cons. split; [reflexivity | exact IHs].
  - change (String c label +:+ s) with (String c (label +:+ s)).
    apply is_substring_cons, IH.
Qed.

(** A template that holds [{0}] formats to a text that holds the
    argument. *)
Lemma format_contains_argument (tpl arg : string) :
  is_substring "{0}" tpl = true → is_substring arg (py_format tpl [arg]) = true.
Proof.
  induction tpl as [|c tl IH]; [discriminate|].
  intros H. rewrite is_substring_unfold in H. apply orb_true_iff in H.
  destruct H as [Hpre|Hrest].
  - apply starts_with_cons in Hpre. destruct Hpre as [<- Hpre].
    destruct tl as [|d tl]; [discriminate|].
    apply starts_with_cons in Hpre. destruct Hpre as [<- Hpre].
    destruct tl as [|cl rest]; [discriminate|].
    apply starts_with_cons in Hpre. destruct Hpre as [<- _].
    apply is_substring_prefix.
  - specialize (IH Hrest). cbn [py_format].
    destruct (Ascii.eqb c "{"); [|apply is_substring_cons, IH].
    destruct tl as [|d [|cl rest]]; try (apply is_substring_cons, IH).
    destruct (Ascii.eqb cl "}"); [|apply is_substring_cons, IH].
    destruct (digit_index d ≫= (λ i, [arg] !! i)) as [a|] eqn:Ha;
      [|apply is_substring_cons, IH].
    assert (a = arg) as ->.
    { destruct (digit_index d) as [[|i]|]; cbn in Ha; [congruence| |discriminate].
      destruct i; discriminate. }
    apply is_substring_prefix.
Qed.

(** ** Exceptions never reach the caller *)

Lemma reported_intro (P : Platform) (label : string) (more : list string)
  (tpl : string) (e : exn) (log : error_log) (d : dict) :
  dict_lookup d "success" = Some (VBool false) →
  dict_lookup d "message" = Some (VStr (message P tpl [exn_text e])) →
  reported P label more tpl e log
    (Ok (VDict d), log ++ [(label +:+ exn_text e) :: more]).
Proof.
  intros Hs Hm. exists d. split; [reflexivity|].
  split; [apply is_substring_app_r|]. split; [exact Hs|]. split; [exact Hm|].
  apply format_contains_argument.
Qed.

Lemma try_except_raised {A : Type} (body : M A) (handler : exn → M A)
  (log log1 : error_log) (e : exn) :
  body log = (Raise e, log1) → try_except body handler log = handler e log1.
Proof. intros H. unfold try_except. rewrite H. reflexivity. Qed.

Lemma try_except_returns_dict (body : M pyval) (handler : exn → M pyval)
  (log : error_log) :
  dict_or_raise (body log) →
  (∀ e log1, returns_dict (handler e log1)) →
  returns_dict (try_except body handler log).
Proof.
  intros Hbody Hhandler. unfold try_except.
  destruct (body log) as [[v|e] log1].
  - destruct Hbody as [d ->]. exists d, log1. reflexivity.
  - apply Hhandler.
Qed.

Lemma bind_dict_or_raise {A : Type} (m : M A) (k : A → M pyval) (log : error_log) :
  (∀ a log', dict_or_raise (k a log')) → dict_or_raise ((m ≫= k) log).
Proof.
  intros Hk. unfold mbind, M_bind, bind.
  destruct (m log) as [[a|e] log']; [apply Hk | exact I].
Qed.

Lemma lift_dict_or_raise (r : result pyval) (log : error_log) :
  match r with Ok v => ∃ d, v = VDict d | Raise _ => True end →
  dict_or_raise (lift r log).
Proof. destruct r; intros H; exact H. Qed.

Lemma result_bind_dict {A : Type} (r : result A) (k : A → result pyval) :
  (∀ a, match k a with Ok v => ∃ d, v = VDict d | Raise _ => True end) →
  match r ≫= k with Ok v => ∃ d, v = VDict d | Raise _ => True end.
Proof. intros Hk. destruct r as [a|e]; [apply Hk | exact I]. Qed.

Lemma handler_returns_dict (args : list string) (d : dict) (log : error_log) :
  returns_dict ((log_error args;; mret (VDict d)) log).
Proof. eexists _, _. reflexivity. Qed.

Ltac body_yields_dict :=
  repeat first
    [ progress cbv zeta
    | match goal with
      | |- ∃ d, _ = VDict d => eexists; reflexivity
      | |- True => exact I
      | |- dict_or_raise (mret _ _) => eexists; reflexivity
      | |- dict_or_raise (lift _ _) => apply lift_dict_or_raise
      | |- dict_or_raise ((match ?x with _ => _ end) _) => destruct x
      | |- dict_or_raise ((_ ≫= _) _) => apply bind_dict_or_raise; intros
      | |- match Ok _ with Ok _ => _ | Raise _ => _ end => eexists; reflexivity
      | |- match (match ?x with _ => _ end) with Ok _ => _ | Raise _ => _ end =>
          destruct x
      | |- match _ ≫= _ with Ok _ => _ | Raise _ => _ end =>
          apply result_bind_dict; intros
      end ].

Lemma with_conversion_body_dict (P : Platform) (item_code : string) (log : error_log) :
  dict_or_raise (get_item_uoms_with_conversion_body P item_code log).
Proof. unfold get_item_uoms_with_conversion_body. body_yields_dict. Qed.

Lemma conversion_factor_body_dict (P : Platform) (item_code uom : string)
  (log : error_log) :
  dict_or_raise (get_uom_conversion_factor_body P item_code uom log).
Proof. unfold get_uom_conversion_factor_body. body_yields_dict. Qed.

Lemma calculations_body_dict (P : Platform) (items_data : pyval) (log : error_log) :
  dict_or_raise (lift (get_opportunity_calculations_body calculations_imports P items_data) log).
Proof. unfold get_opportunity_calculations_body. body_yields_dict. Qed.

Lemma validation_body_dict (P : Platform) (data : pyval) (log : error_log) :
  dict_or_raise (lift (validate_opportunity_data_body validation_imports P data) log).
Proof. unfold validate_opportunity_data_body. body_yields_dict. Qed.

Lemma and_conversion_body_dict (P : Platform) (item_code : string)
  (uom : option string) (log : error_log) :
  dict_or_raise (get_item_uoms_and_conversion_body P item_code uom log).
Proof. unfold get_item_uoms_and_conversion_body. body_yields_dict. Qed.

Lemma integration_body_dict (P : Platform) (log : error_log) :
  dict_or_raise (validate_integration_status_body P log).
Proof. unfold validate_integration_status_body. body_yields_dict. Qed.


(** ** validate_opportunity_data *)

Lemma validation_body_name_error (P : Platform) (d : dict) :
  validate_opportunity_data_body validation_imports P (VDict d) = Raise flt_name_error.
Proof. reflexivity. Qed.

(** C4 (the code departs from it): on every opportunity dictionary
    [validate_opportunity_data] stops at its first use of [flt], a name the
    function does not import: it logs the [NameError] and returns the
    failure dictionary, which has neither [valid] nor [errors]; no date is
    ever compared. *)
Theorem validate_opportunity_data_stops_at_flt (P : Platform) (d : dict)
  (log : error_log) :
  validate_opportunity_data P (VDict d) log
  = (Ok (validation_failure P), log ++ [validation_log_entry])
  ∧ exn_text flt_name_error = "name 'flt' is not defined"
  ∧ field (validation_failure P) "success" = Some (VBool false)
  ∧ field (validation_failure P) "valid" = None
  ∧ field (validation_failure P) "errors" = None.
Proof. repeat split. Qed.

(** With [flt] among the imports the same body validates the dates: the
    ordered sample opportunity is valid, the reversed one carries the
    error of its dates. *)
Lemma validation_with_flt_orders_dates :
  validate_opportunity_data_body validation_imports_with_flt Sample.on
    (VDict Sample.ordered_opportunity)
  = Ok (VDict [("success", VBool true);
               ("valid", VBool true);
               ("errors", VList []);
               ("warnings", VList []);
               ("total_people_qty", VFloat (PyFloat.of_Z 4))])
  ∧ validate_opportunity_data_body validation_imports_with_flt Sample.on
      (VDict Sample.reversed_opportunity)
    = Ok (VDict [("success", VBool true);
                 ("valid", VBool false);
                 ("errors",
                  VList [VStr "Opportunity start date cannot be after expected closing date"]);
                 ("warnings", VList []);
                 ("total_people_qty", VInt 0)]).
Proof. split; vm_compute; reflexivity. Qed.

(** C9 (the code departs from it): the opportunity for 10 people with an
    event for 25 gets no warning and no [valid] field: the call ends in
    the [NameError] of [flt] like every other. *)
Theorem people_threshold_is_never_compared :
  validate_opportunity_data Sample.on (VDict Sample.crowded_opportunity) []
  = (Ok (validation_failure Sample.on), [validation_log_entry])
  ∧ field (validation_failure Sample.on) "valid" = None
  ∧ field (validation_failure Sample.on) "warnings" = None
  ∧ validation_failure Sample.on
    = VDict [("success", VBool false);
             ("message", VStr "Error validating data: name 'flt' is not defined")].
Proof. repeat split. Qed.

(** With [flt] among the imports the crowded opportunity is valid and
    carries the warning only. *)
Lemma validation_with_flt_warns_only :
  validate_opportunity_data_body validation_imports_with_flt Sample.on
    (VDict Sample.crowded_opportunity)
  = Ok (VDict [("success", VBool true);
               ("valid", VBool true);
               ("errors", VList []);
               ("warnings",
                VList [VStr "Total people quantity (25.0) exceeds maximum allowed (10.0)"]);
               ("total_people_qty", VFloat (PyFloat.of_Z 25))]).
Proof. vm_compute. reflexivity. Qed.

(** ** validate_integration_status *)

Lemma empty_item_code_answer (P : Platform) (log : error_log) :
  get_item_uoms_and_conversion P "" None log
  = (Ok (failure_uoms (message P "Item Code is required" [])), log).
Proof. reflexivity. Qed.

Lemma api_endpoints_check_eval (P : Platform) (r : StatusReport) (log : error_log) :
  api_endpoints_check P r log
  = (Ok (if api_endpoints_answer P
         then {| integration_status := integration_status r;
                 checks := checks r ++ [("api_endpoints", VDict [("status", VStr "OK")])];
                 warnings := warnings r;
                 errors := errors r |}
         else {| integration_status := integration_status r;
                 checks := checks r;
                 warnings := warnings r ++ ["API endpoint validation inconclusive"];
                 errors := errors r |}), log).
Proof.
  unfold api_endpoints_check, try_except, mbind, M_bind, bind.
  rewrite empty_item_code_answer.
  change (lift (py_get (failure_uoms (message P "Item Code is required" []))
                  "success" VNone) log)
    with (Ok (VBool false), log).
  cbn [eq_False negb].
  change (lift (py_get (failure_uoms (message P "Item Code is required" []))
                  "message" (VStr "")) log)
    with (Ok (VStr (message P "Item Code is required" [])), log).
  cbn [py_lower_val lift].
  fold (api_endpoints_answer P).
  destruct (api_endpoints_answer P); reflexivity.
Qed.

Lemma uom_conversion_loop_eval (P : Platform) (table : list UOMConversionDetail)
  (items : list Item) (log : error_log) :
  tabUOMConversionDetail P = Ok table →
  uom_conversion_loop P items log = (Ok (map (conversion_status table) items), log).
Proof.
  intros Htable. induction items as [|item items IH]; [reflexivity|].
  cbn [uom_conversion_loop map]. unfold mbind, M_bind, bind, lift.
  rewrite Htable, IH. reflexivity.
Qed.

Lemma found_field_spec (fields : list CustomField) (f : string) :
  In f expected_fields →
  In f (map cf_fieldname (custom_fields_query fields))
  ↔ ∃ row, In row fields ∧ cf_dt row = "Opportunity Item" ∧ cf_fieldname row = f.
Proof.
  intros Hf. unfold custom_fields_query. rewrite List.in_map_iff. split.
  - intros (row & Hname & Hrow). apply List.filter_In in Hrow.
    destruct Hrow as [Hin Hrow]. apply andb_true_iff in Hrow.
    destruct Hrow as [Hdt _]. apply String.eqb_eq in Hdt.
    exists row. auto.
  - intros (row & Hin & Hdt & Hname). exists row. split; [exact Hname|].
    apply List.filter_In. split; [exact Hin|]. apply andb_true_iff. split.
    + apply String.eqb_eq, Hdt.
    + apply List.existsb_exists. exists f. split; [exact Hf|].
      apply String.eqb_eq, Hname.
Qed.

Lemma missing_field_spec (fields : list CustomField) (f : string) :
  f ∈ missing_fields_of fields
  ↔ In f expected_fields
    ∧ ¬ ∃ row, In row fields ∧ cf_dt row = "Opportunity Item" ∧ cf_fieldname row = f.
Proof.
  unfold missing_fields_of.
  rewrite elem_of_difference, !elem_of_list_to_set, !list_elem_of_In.
  split; intros [Hf Hnot]; (split; [exact Hf|]);
    intros H; apply Hnot; apply (found_field_spec fields f Hf); exact H.
Qed.

Lemma some_field_missing (fields : list CustomField) :
  has_rows (elements (missing_fields_of fields)) = true
  ↔ ∃ f, In f expected_fields
         ∧ ¬ ∃ row, In row fields ∧ cf_dt row = "Opportunity Item" ∧ cf_fieldname row = f.
Proof.
  split.
  - destruct (elements (missing_fields_of fields)) as [|f l] eqn:E; [discriminate|].
    intros _. exists f. apply missing_field_spec, elem_of_elements.
    rewrite E. left.
  - intros (f & Hf). apply missing_field_spec, elem_of_elements in Hf.
    destruct (elements (missing_fields_of fields)); [inversion Hf | reflexivity].
Qed.

Lemma sample_items_at_most_five (items : list Item) :
  (length (sample_items_query items) ≤ 5)%nat.
Proof. unfold sample_items_query. rewrite length_take. lia. Qed.



(** The three statuses on the sample sites: every field and an English
    answer, every field and a French answer, a field missing. *)
Lemma integration_status_on_samples :
  (fst (validate_integration_status Sample.on []) ≫= λ r, Ok (field r "integration_status"))
  = Ok (Some (VStr "healthy"))
  ∧ (fst (validate_integration_status Sample.french []) ≫=
       λ r, Ok (field r "integration_status", field r "warnings"))
    = Ok (Some (VStr "warning"),
          Some (VList [VStr "API endpoint validation inconclusive"]))
  ∧ (fst (validate_integration_status Sample.incomplete []) ≫=
       λ r, Ok (field r "integration_status", field r "errors"))
    = Ok (Some (VStr "error"),
          Some (VList [VStr "Missing custom fields: custom__people_qty"])).
Proof. repeat split; vm_compute; reflexivity. Qed.


(** * Further properties of the module *)

(** ** get_uom_conversion_factor *)

Lemma platform_factor_is_lookup (res : dict) :
  platform_factor res = dict_lookup res "conversion_factor".
Proof. destruct res; reflexivity. Qed.



(** ** Calls without an item code *)

(** X2: without an item code (or, for [get_uom_conversion_factor], without
    a UOM) the three lookups refuse at once: on two platforms that word
    their messages alike they return the same dictionary and leave the log
    alone, whatever the document stores, settings and conversion lookups of
    the two platforms hold. *)
Theorem empty_arguments_read_nothing (P Q : Platform) (log : error_log) :
  same_messages P Q →
  get_item_uoms_with_conversion P "" log
  = (fst (get_item_uoms_with_conversion Q "" log), log)
  ∧ (∀ uom, get_uom_conversion_factor P "" uom log
            = (fst (get_uom_conversion_factor Q "" uom log), log))
  ∧ (∀ item_code, get_uom_conversion_factor P item_code "" log
                  = (fst (get_uom_conversion_factor Q item_code "" log), log))
  ∧ (∀ uom, get_item_uoms_and_conversion P "" uom log
            = (fst (get_item_uoms_and_conversion Q "" uom log), log)).
Proof.
  intros Hsame. unfold get_item_uoms_with_conversion, get_uom_conversion_factor,
    get_item_uoms_and_conversion, get_item_uoms_and_conversion_body, try_except, message.
  cbn [str_truthy String.eqb negb orb].
  repeat split; intros; cbn; try rewrite orb_true_r; cbn;
    rewrite Hsame; reflexivity.
Qed.

(** The sample site with the flag on and with it off. *)
Lemma empty_arguments_read_nothing_witness :
  get_item_uoms_with_conversion Sample.on "" []
  = (fst (get_item_uoms_with_conversion Sample.off "" []), [])
  ∧ (∀ uom, get_uom_conversion_factor Sample.on "" uom []
            = (fst (get_uom_conversion_factor Sample.off "" uom []), []))
  ∧ (∀ item_code, get_uom_conversion_factor Sample.on item_code "" []
                  = (fst (get_uom_conversion_factor Sample.off item_code "" []), []))
  ∧ (∀ uom, get_item_uoms_and_conversion Sample.on "" uom []
            = (fst (get_item_uoms_and_conversion Sample.off "" uom []), [])).
Proof.
  exact (empty_arguments_read_nothing Sample.on Sample.off [] (λ s, eq_refl)).
Defined.

(** ** get_opportunity_calculations: inputs that are not lists of dictionaries *)

(** X3: when what [get_opportunity_calculations] is given, read from JSON
    if it is a string, is not a list (a single item dictionary, a number,
    null), the function answers "Invalid items data format" and logs
    nothing. *)
Theorem calculations_need_a_list (P : Platform) (items_data items : pyval)
  (log : error_log) :
  loads_if_str calculations_imports P items_data = Ok items →
  is_list items = false →
  get_opportunity_calculations P items_data log
  = (Ok (failure (message P "Invalid items data format" [])), log).
Proof.
  intros Hitems Hlist.
  unfold get_opportunity_calculations, try_except, lift,
    get_opportunity_calculations_body.
  rewrite Hitems. cbn [mbind result_bind].
  destruct items; try discriminate Hlist; reflexivity.
Qed.

(** One line passed where the list of lines is expected. *)
Lemma calculations_need_a_list_witness :
  get_opportunity_calculations Sample.on (VDict Sample.box_line) []
  = (Ok (failure "Invalid items data format"), []).
Proof.
  exact (calculations_need_a_list Sample.on (VDict Sample.box_line)
           (VDict Sample.box_line) [] eq_refl eq_refl).
Defined.

(** X5: the loop over the items composes: running it over [xs ++ ys] is
    running it over [xs] and then, from the rows and totals reached, over
    [ys]; an exception in [xs] ends both. *)
Theorem calc_loop_app (locals : list string) (P : Platform) (xs ys : list pyval)
  (st : CalcState) :
  calc_loop locals P (xs ++ ys) st
  = calc_loop locals P xs st ≫= calc_loop locals P ys.
Proof.
  revert st. induction xs as [|x xs IH]; intros st; [reflexivity|].
  cbn [app calc_loop].
  destruct (calc_step locals P st x) as [st'|e]; cbn [mbind result_bind];
    [apply IH | reflexivity].
Qed.

Lemma calc_step_not_dict (P : Platform) (st : CalcState) (v : pyval) :
  is_dict v = false →
  calc_step calculations_imports P st v = Raise (AttributeError (type_name v) "get").
Proof. intros Hv. destruct v; try discriminate Hv; reflexivity. Qed.

Lemma calc_loop_dicts_then (P : Platform) (ds : list dict) (v : pyval)
  (rest : list pyval) (st : CalcState) :
  is_dict v = false →
  calc_loop calculations_imports P (map VDict ds ++ v :: rest) st
  = Raise (AttributeError (type_name v) "get").
Proof.
  intros Hv. revert st. induction ds as [|d ds IH]; intros st.
  - cbn [map app calc_loop]. rewrite (calc_step_not_dict P st v Hv). reflexivity.
  - cbn [map app calc_loop]. rewrite calc_step_dict. cbn [mbind result_bind].
    apply IH.
Qed.



Lemma running_sum_from_float (xs : list float) (f : float) :
  ∃ g, fold_left (λ acc x, num_add acc (NFloat x)) xs (NFloat f) = NFloat g.
Proof.
  revert f. induction xs as [|x xs IH]; intros f; [exists f; reflexivity|].
  cbn [fold_left num_add]. apply IH.
Qed.

Lemma running_sum_nonempty (x : float) (xs : list float) :
  ∃ g, running_sum (x :: xs) = NFloat g.
Proof. unfold running_sum. cbn [fold_left num_add]. apply running_sum_from_float. Qed.

(** X6: the two totals of [get_opportunity_calculations] are the integer
    [0] for the empty list and floats for every other list of item
    dictionaries: the integer the loop starts from is returned only when
    the loop never ran. *)
Theorem totals_are_integers_only_when_empty (P : Platform) (ds : list dict)
  (log : error_log) :
  ∃ r,
    get_opportunity_calculations P (VList (map VDict ds)) log = (Ok r, log)
    ∧ field r "success" = Some (VBool true)
    ∧ match ds with
      | [] =>
          field r "total_people_qty" = Some (VInt 0)
          ∧ field r "total_amount" = Some (VInt 0)
          ∧ field r "items" = Some (VList [])
      | _ :: _ =>
          ∃ people amount,
            field r "total_people_qty" = Some (VFloat people)
            ∧ field r "total_amount" = Some (VFloat amount)
      end.
Proof.
  unfold get_opportunity_calculations, try_except, lift,
    get_opportunity_calculations_body.
  cbn [loads_if_str mbind result_bind]. rewrite calc_loop_dicts.
  cbn [mbind result_bind calc_results calc_total_people calc_total_amount app].
  eexists. split; [reflexivity|]. split; [reflexivity|].
  destruct ds as [|d ds]; [repeat split|].
  destruct (running_sum_nonempty (in_people_qty P d) (map (in_people_qty P) ds))
    as [people Hpeople].
  destruct (running_sum_nonempty (in_amount P d) (map (in_amount P) ds))
    as [amount Hamount].
  exists people, amount. unfold running_sum in Hpeople, Hamount.
  cbn [field dict_lookup String.eqb Ascii.eqb Bool.eqb map].
  cbn [map] in Hpeople, Hamount. rewrite Hpeople, Hamount. split; reflexivity.
Qed.

(** ** The UOM lookups on an item the platform has *)

Section ItemLookups.
Variable P : Platform.
Variable item_code : string.
Variable item : Item.
Variable flag : pyval.
Hypothesis Hcode : str_truthy item_code = true.
Hypothesis Hdoc : get_cached_doc P item_code = Ok (Some item).
Hypothesis Hflag : allow_uom_with_conversion_rate_defined_in_item P = Ok flag.

Lemma find_none_existsb (u : string) :
  existsb (λ r, String.eqb (ucd_uom r) u) (item_uoms item) = false →
  find (λ r, String.eqb (ucd_uom r) u) (item_uoms item) = None.
Proof.
  induction (item_uoms item) as [|r rows IH]; [reflexivity|].
  cbn [existsb find]. destruct (String.eqb (ucd_uom r) u); [discriminate|exact IH].
Qed.

Lemma find_some_existsb (u : string) :
  existsb (λ r, String.eqb (ucd_uom r) u) (item_uoms item) = true →
  ∃ r, find (λ r, String.eqb (ucd_uom r) u) (item_uoms item) = Some r.
Proof.
  induction (item_uoms item) as [|r rows IH]; [discriminate|].
  cbn [existsb find]. destruct (String.eqb (ucd_uom r) u); [eauto|exact IH].
Qed.

(** X7: for a UOM that is neither in the item's table nor its stock UOM,
    with the flag set and rows on the item, [get_item_uoms_and_conversion]
    and [get_uom_conversion_factor] agree: both return the
    [conversion_factor] of the platform's lookup, and neither logs. *)
Theorem lookups_agree_on_platform_factor (u : string) (res : dict) (cf : pyval)
  (log : error_log) :
  truthy flag && has_rows (item_uoms item) = true →
  str_truthy u = true →
  answered_by_item item (Some u) = false →
  get_conversion_factor P item_code u = Ok res →
  dict_lookup res "conversion_factor" = Some cf →
  get_item_uoms_and_conversion P item_code (Some u) log
  = (Ok (and_conversion_result item flag (item_entries item) cf), log)
  ∧ get_uom_conversion_factor P item_code u log
    = (Ok (conversion_factor_result item_code u cf), log).
Proof.
  intros Hon Hu Hitem Hres Hcf. unfold answered_by_item in Hitem.
  rewrite Hu in Hitem. cbn [negb orb] in Hitem.
  apply orb_false_iff in Hitem. destruct Hitem as [Htable Hstock].
  split.
  - rewrite (and_conversion_eval P item_code item flag Hcode Hdoc Hflag), Hon.
    unfold search_conversion_factor. rewrite Hu, (find_none_existsb u Htable), Hstock, Hres.
    cbn [mbind result_bind]. rewrite platform_factor_is_lookup, Hcf. reflexivity.
  - unfold get_uom_conversion_factor. rewrite Hcode, Hu. cbn [negb orb].
    unfold try_except, get_uom_conversion_factor_body, mbind, M_bind, bind, lift.
    rewrite Hres. fold (platform_factor res). rewrite platform_factor_is_lookup, Hcf.
    reflexivity.
Qed.

(** X8: a request that the item answers alone (no UOM, an empty one, a UOM
    of the item's table, or the item's stock UOM) never reaches the
    platform's conversion lookup: [get_item_uoms_and_conversion] returns
    the same result and the same log under every replacement of that
    lookup, one that raises included. *)
Theorem item_answers_without_platform (uom : option string) (log : error_log)
  (lookup : string → string → result dict) :
  answered_by_item item uom = true →
  get_item_uoms_and_conversion (with_conversion_lookup P lookup) item_code uom log
  = get_item_uoms_and_conversion P item_code uom log.
Proof.
  intros Hitem.
  rewrite (and_conversion_eval P item_code item flag Hcode Hdoc Hflag).
  rewrite (and_conversion_eval (with_conversion_lookup P lookup) item_code item flag
             Hcode Hdoc Hflag).
  destruct (truthy flag && has_rows (item_uoms item)); [|reflexivity].
  assert (Hsame : search_conversion_factor (with_conversion_lookup P lookup)
                    item_code item uom
                  = search_conversion_factor P item_code item uom
                  ∧ ∃ v, search_conversion_factor P item_code item uom = Ok v).
  { unfold search_conversion_factor, answered_by_item in *.
    destruct uom as [u|]; [|eauto].
    destruct (str_truthy u); [|eauto]. cbn [negb orb] in Hitem.
    destruct (existsb (λ r, String.eqb (ucd_uom r) u) (item_uoms item)) eqn:Htable.
    - destruct (find_some_existsb u Htable) as [r ->]. eauto.
    - rewrite (find_none_existsb u Htable). cbn [orb] in Hitem. rewrite Hitem. eauto. }
  destruct Hsame as [-> [v ->]]. reflexivity.
Qed.

Lemma no_stock_row_filter :
  existsb (is_stock_row item) (item_uoms item) = false →
  List.filter (is_stock_row item) (item_uoms item) = []
  ∧ List.filter (λ r, negb (is_stock_row item r)) (item_uoms item) = item_uoms item.
Proof.
  induction (item_uoms item) as [|r rows IH]; [split; reflexivity|].
  cbn [existsb List.filter]. intros H. apply orb_false_iff in H.
  destruct H as [Hr Hrows]. rewrite Hr. cbn [negb].
  destruct (IH Hrows) as [-> ->]. split; reflexivity.
Qed.

(** X9: when UOM conversion is allowed and the item's table has rows but
    none for the item's stock UOM, [get_item_uoms_with_conversion] returns
    the rows in the order of the table, none of them flagged
    [is_stock_uom], and its [default_uom], the stock UOM, is not among the
    UOMs it offers. *)
Theorem stock_uom_may_be_missing_from_uoms (log : error_log) :
  truthy flag && has_rows (item_uoms item) = true →
  existsb (is_stock_row item) (item_uoms item) = false →
  get_item_uoms_with_conversion P item_code log
  = (Ok (with_conversion_result item_code item flag (item_entries item)), log)
  ∧ Forall (λ e, entry_is_stock_uom e = false) (item_entries item)
  ∧ field (with_conversion_result item_code item flag (item_entries item)) "default_uom"
    = Some (VStr (item_stock_uom item))
  ∧ ¬ In (item_stock_uom item) (map entry_uom (item_entries item)).
Proof.
  intros Hon Hnone. destruct (no_stock_row_filter Hnone) as [Hstock Hother].
  split; [|split; [|split; [reflexivity|]]].
  - rewrite (with_conversion_eval P item_code item flag Hcode Hdoc Hflag), Hon.
    rewrite py_sorted_reverse_partition, !filter_of_map.
    change (λ x, entry_is_stock_uom (detail_entry (item_stock_uom item) x))
      with (is_stock_row item).
    change (λ x, negb (entry_is_stock_uom (detail_entry (item_stock_uom item) x)))
      with (λ r, negb (is_stock_row item r)).
    rewrite Hstock, Hother. reflexivity.
  - apply List.Forall_forall. intros e He. apply List.in_map_iff in He.
    destruct He as (r & <- & Hr). cbn [detail_entry entry_is_stock_uom].
    destruct (String.eqb (ucd_uom r) (item_stock_uom item)) eqn:E; [|reflexivity].
    assert (existsb (is_stock_row item) (item_uoms item) = true) as Hex
      by (apply List.existsb_exists; exists r; split; [exact Hr | exact E]).
    rewrite Hex in Hnone. discriminate Hnone.
  - intros Hin. unfold item_entries in Hin. rewrite List.map_map in Hin.
    apply List.in_map_iff in Hin. destruct Hin as (r & Hname & Hr).
    cbn [detail_entry entry_uom] in Hname.
    assert (existsb (is_stock_row item) (item_uoms item) = true) as Hex.
    { apply List.existsb_exists. exists r. split; [exact Hr|].
      apply String.eqb_eq, Hname. }
    rewrite Hex in Hnone. discriminate Hnone.
Qed.

(** X10: a lookup that succeeds on an item never returns an empty [uoms]
    list: [get_item_uoms_with_conversion] returns as many entries as the
    item has rows when the flag is set and there are rows, and one entry
    otherwise; [get_item_uoms_and_conversion] returns at least one entry
    whenever its [success] is true. *)
Theorem uoms_never_empty (uom : option string) (log : error_log) :
  ∃ uoms1 r2 log2,
    get_item_uoms_with_conversion P item_code log
    = (Ok (with_conversion_result item_code item flag uoms1), log)
    ∧ length uoms1
      = (if truthy flag && has_rows (item_uoms item)
         then length (item_uoms item) else 1%nat)
    ∧ (0 < length uoms1)%nat
    ∧ get_item_uoms_and_conversion P item_code uom log = (Ok r2, log2)
    ∧ (field r2 "success" = Some (VBool true) →
       ∃ e es, field r2 "uoms" = Some (VList (entry_val e :: map entry_val es))).
Proof.
  rewrite (with_conversion_eval P item_code item flag Hcode Hdoc Hflag).
  rewrite (and_conversion_eval P item_code item flag Hcode Hdoc Hflag).
  destruct (truthy flag && has_rows (item_uoms item)) eqn:Hon.
  - apply andb_true_iff in Hon. destruct Hon as [_ Hrows].
    assert (Hlen : length (py_sorted entry_is_stock_uom true
                             (map (detail_entry (item_stock_uom item)) (item_uoms item)))
                   = length (item_uoms item)).
    { rewrite py_sorted_reverse_partition.
      rewrite (Permutation_length (partition_permutation entry_is_stock_uom _)).
      apply List.length_map. }
    assert (Hpos : (0 < length (item_uoms item))%nat).
    { unfold has_rows in Hrows. destruct (item_uoms item); [discriminate|cbn; lia]. }
    destruct (search_conversion_factor P item_code item uom) as [v|e];
      eexists _, _, _; (split; [reflexivity|]); (split; [exact Hlen|]);
      (split; [rewrite Hlen; exact Hpos|]); (split; [reflexivity|]).
    + intros _. unfold item_entries.
      destruct (item_uoms item) as [|r rows]; [inversion Hpos|].
      exists (detail_entry (item_stock_uom item) r),
        (map (detail_entry (item_stock_uom item)) rows). reflexivity.
    + intros H. discriminate H.
  - eexists _, _, _. split; [reflexivity|]. split; [reflexivity|].
    split; [cbn; lia|]. split; [reflexivity|].
    intros _. exists (stock_entry (item_stock_uom item)), []. reflexivity.
Qed.
End ItemLookups.

(** A crate of the sample item is in neither its table nor its stock UOM:
    both lookups return the platform's 7. *)
Lemma lookups_agree_on_platform_factor_witness :
  get_item_uoms_and_conversion Sample.on "CAR-001" (Some "Crate") []
  = (Ok (and_conversion_result Sample.car (VInt 1) (item_entries Sample.car)
           (VFloat (PyFloat.of_Z 7))), [])
  ∧ get_uom_conversion_factor Sample.on "CAR-001" "Crate" []
    = (Ok (conversion_factor_result "CAR-001" "Crate" (VFloat (PyFloat.of_Z 7))), []).
Proof.
  exact (lookups_agree_on_platform_factor Sample.on "CAR-001" Sample.car (VInt 1)
           eq_refl eq_refl eq_refl "Crate" [("conversion_factor", VFloat (PyFloat.of_Z 7))]
           (VFloat (PyFloat.of_Z 7)) [] eq_refl eq_refl eq_refl eq_refl eq_refl).
Defined.

(** A pallet of the sample item, with a platform lookup that raises. *)
Lemma item_answers_without_platform_witness :
  get_item_uoms_and_conversion
    (with_conversion_lookup Sample.on (λ _ _, Raise (Exn "ImportError" "No module named 'erpnext'")))
    "CAR-001" (Some "Pallet") []
  = get_item_uoms_and_conversion Sample.on "CAR-001" (Some "Pallet") [].
Proof.
  exact (item_answers_without_platform Sample.on "CAR-001" Sample.car (VInt 1)
           eq_refl eq_refl eq_refl (Some "Pallet") []
           (λ _ _, Raise (Exn "ImportError" "No module named 'erpnext'")) eq_refl).
Defined.

(** The second sample item: boxes and pallets of an item kept in pieces. *)
Lemma stock_uom_may_be_missing_from_uoms_witness :
  get_item_uoms_with_conversion Sample2.site "CAR-002" []
  = (Ok (with_conversion_result "CAR-002" Sample2.car (VInt 1)
           (item_entries Sample2.car)), [])
  ∧ Forall (λ e, entry_is_stock_uom e = false) (item_entries Sample2.car)
  ∧ field (with_conversion_result "CAR-002" Sample2.car (VInt 1)
             (item_entries Sample2.car)) "default_uom"
    = Some (VStr "Nos")
  ∧ ¬ In "Nos" (map entry_uom (item_entries Sample2.car)).
Proof.
  exact (stock_uom_may_be_missing_from_uoms Sample2.site "CAR-002" Sample2.car (VInt 1)
           eq_refl eq_refl eq_refl [] eq_refl eq_refl).
Defined.

(** The sample item with the flag on: three entries from either lookup. *)
Lemma uoms_never_empty_witness :
  ∃ uoms1 r2 log2,
    get_item_uoms_with_conversion Sample.on "CAR-001" []
    = (Ok (with_conversion_result "CAR-001" Sample.car (VInt 1) uoms1), [])
    ∧ length uoms1 = 3%nat
    ∧ (0 < length uoms1)%nat
    ∧ get_item_uoms_and_conversion Sample.on "CAR-001" (Some "Box") [] = (Ok r2, log2)
    ∧ (field r2 "success" = Some (VBool true) →
       ∃ e es, field r2 "uoms" = Some (VList (entry_val e :: map entry_val es))).
Proof.
  exact (uoms_never_empty Sample.on "CAR-001" Sample.car (VInt 1)
           eq_refl eq_refl eq_refl (Some "Box") []).
Defined.

(** ** validate_opportunity_data on every input *)


(** ** hooks.py and the integration check *)

(** X15: the fixtures of [hooks.py] export every custom field that
    [validate_integration_status] looks for: its query returns the same
    rows on the exported custom fields as on the whole table. *)
Theorem checked_fields_are_exported (rows : list CustomField) :
  custom_fields_query (exported_custom_fields rows) = custom_fields_query rows.
Proof.
  unfold custom_fields_query, exported_custom_fields.
  induction rows as [|row rows IH]; [reflexivity|].
  cbn [List.filter].
  destruct (String.eqb (cf_dt row) "Opportunity Item") eqn:Hdt.
  - assert (existsb (λ fx, fixture_selects fx row) fixtures = true) as ->.
    { unfold fixtures, fixture_selects. cbn [existsb fixture_doctype fixture_dt_in].
      rewrite Hdt.
      change (String.eqb "Custom Field" "Custom Field") with true.
      cbn [andb orb]. rewrite !orb_true_r. reflexivity. }
    cbn [List.filter]. rewrite Hdt, IH. reflexivity.
  - cbn [andb]. destruct (existsb (λ fx, fixture_selects fx row) fixtures);
      [cbn [List.filter]; rewrite Hdt; cbn [andb]|]; exact IH.
Qed.

(** The report of [validate_integration_status] once its first three
    queries answered and its loop over the sample items returned. *)
Lemma integration_report_eval (P : Platform) (flag : pyval)
  (fields : list CustomField) (items : list Item) (statuses : list pyval)
  (log : error_log) :
  allow_uom_with_conversion_rate_defined_in_item P = Ok flag →
  tabCustomField P = Ok fields →
  tabItem P = Ok items →
  uom_conversion_loop P (sample_items_query items) log = (Ok statuses, log) →
  ∃ r,
    validate_integration_status P log = (Ok (report_val r), log)
    ∧ dict_lookup (checks r) "custom_fields"
      = Some (VDict [("expected", VList (map VStr expected_fields));
                     ("found",
                      VList (map VStr (map cf_fieldname (custom_fields_query fields))));
                     ("missing", VList (map VStr (elements (missing_fields_of fields))));
                     ("status",
                      VStr (if has_rows (elements (missing_fields_of fields))
                            then "ERROR" else "OK"))])
    ∧ dict_lookup (checks r) "uom_conversions"
      = Some (VDict [("sample_items", VList statuses); ("status", VStr "OK")])
    ∧ (length (errors r) ≤ 1)%nat
    ∧ (length (warnings r) ≤ 1)%nat
    ∧ warnings r
      = (if api_endpoints_answer P then []
         else ["API endpoint validation inconclusive"])
    ∧ errors r
      = (if has_rows (elements (missing_fields_of fields))
         then ["Missing custom fields: "
               +:+ py_join ", " (elements (missing_fields_of fields))]
         else [])
    ∧ integration_status r
      = (if has_rows (elements (missing_fields_of fields)) then "error"
         else if api_endpoints_answer P then "healthy" else "warning").
Proof.
  intros Hflag Hfields Hitems Hloop.
  unfold validate_integration_status, try_except, validate_integration_status_body.
  cbv zeta. unfold mbind, M_bind, bind, lift at 1 2 3.
  rewrite Hflag, Hfields, Hitems, Hloop, api_endpoints_check_eval.
  fold (missing_fields_of fields).
  destruct (api_endpoints_answer P);
    destruct (elements (missing_fields_of fields)) as [|m miss];
    (eexists; split; [reflexivity|]);
    cbn [errors warnings checks integration_status has_rows length Nat.eqb negb app];
    repeat split; cbn; lia.
Qed.

(** X12: when no item qualifies as a sample (no item without variants),
    [validate_integration_status] does not read the UOM conversions
    table: it returns its report, with an empty [sample_items] list,
    whatever reading that table would give, an exception included. *)
Theorem no_sample_items_no_conversions_query (P : Platform) (flag : pyval)
  (fields : list CustomField) (items : list Item) (log : error_log) :
  allow_uom_with_conversion_rate_defined_in_item P = Ok flag →
  tabCustomField P = Ok fields →
  tabItem P = Ok items →
  sample_items_query items = [] →
  ∃ r,
    validate_integration_status P log = (Ok (report_val r), log)
    ∧ dict_lookup (checks r) "uom_conversions"
      = Some (VDict [("sample_items", VList []); ("status", VStr "OK")]).
Proof.
  intros Hflag Hfields Hitems Hnone.
  destruct (integration_report_eval P flag fields items [] log Hflag Hfields Hitems)
    as (r & Hr & _ & Hconv & _).
  - rewrite Hnone. reflexivity.
  - exists r. split; assumption.
Qed.

(** The second sample site: its only item is a template with variants,
    and its conversions table cannot be read. *)
Lemma no_sample_items_no_conversions_query_witness :
  tabUOMConversionDetail Sample2.site = Raise (Exn "OperationalError" "table is locked")
  ∧ ∃ r,
      validate_integration_status Sample2.site [] = (Ok (report_val r), [])
      ∧ dict_lookup (checks r) "uom_conversions"
        = Some (VDict [("sample_items", VList []); ("status", VStr "OK")]).
Proof.
  split; [reflexivity|].
  exact (no_sample_items_no_conversions_query Sample2.site (VInt 1) Sample.all_fields
           [Sample2.car] [] eq_refl eq_refl eq_refl eq_refl).
Defined.

(** X13: in the report of [validate_integration_status] the [missing]
    list has no duplicates and holds exactly the expected fields that are
    not in the [found] list: an expected field is missing if and only if
    it was not found, and nothing else is ever listed as missing or
    found. *)
Theorem expected_fields_found_or_missing (P : Platform) (flag : pyval)
  (fields : list CustomField) (items : list Item)
  (table : list UOMConversionDetail) (log : error_log) :
  allow_uom_with_conversion_rate_defined_in_item P = Ok flag →
  tabCustomField P = Ok fields →
  tabItem P = Ok items →
  tabUOMConversionDetail P = Ok table →
  ∃ r found missing status,
    validate_integration_status P log = (Ok (report_val r), log)
    ∧ dict_lookup (checks r) "custom_fields"
      = Some (VDict [("expected", VList (map VStr expected_fields));
                     ("found", VList (map VStr found));
                     ("missing", VList (map VStr missing));
                     ("status", VStr status)])
    ∧ List.NoDup missing
    ∧ (∀ f, In f missing ↔ In f expected_fields ∧ ¬ In f found)
    ∧ (∀ f, In f found → In f expected_fields)
    ∧ (status = "OK" ↔ missing = []).
Proof.
  intros Hflag Hfields Hitems Htable.
  destruct (integration_report_eval P flag fields items
              (map (conversion_status table) (sample_items_query items)) log
              Hflag Hfields Hitems (uom_conversion_loop_eval P table _ log Htable))
    as (r & Hr & Hcustom & _).
  exists r, (map cf_fieldname (custom_fields_query fields)),
    (elements (missing_fields_of fields)),
    (if has_rows (elements (missing_fields_of fields)) then "ERROR" else "OK").
  split; [exact Hr|]. split; [exact Hcustom|]. split; [|split; [|split]].
  - apply NoDup_ListNoDup, NoDup_elements.
  - intros f. rewrite <- list_elem_of_In, elem_of_elements. unfold missing_fields_of.
    rewrite elem_of_difference, !elem_of_list_to_set, !list_elem_of_In. reflexivity.
  - intros f Hf. apply List.in_map_iff in Hf. destruct Hf as (row & <- & Hrow).
    unfold custom_fields_query in Hrow. apply List.filter_In in Hrow.
    destruct Hrow as [_ Hrow]. apply andb_true_iff in Hrow. destruct Hrow as [_ Hrow].
    apply List.existsb_exists in Hrow. destruct Hrow as (f & Hf & Heq).
    apply String.eqb_eq in Heq. rewrite Heq. exact Hf.
  - destruct (elements (missing_fields_of fields)); cbn; split; intros H;
      try reflexivity; discriminate H.
Qed.

(** The sample site without one of the three fields. *)
Lemma expected_fields_found_or_missing_witness :
  ∃ r found missing status,
    validate_integration_status Sample.incomplete [] = (Ok (report_val r), [])
    ∧ dict_lookup (checks r) "custom_fields"
      = Some (VDict [("expected", VList (map VStr expected_fields));
                     ("found", VList (map VStr found));
                     ("missing", VList (map VStr missing));
                     ("status", VStr status)])
    ∧ List.NoDup missing
    ∧ (∀ f, In f missing ↔ In f expected_fields ∧ ¬ In f found)
    ∧ (∀ f, In f found → In f expected_fields)
    ∧ (status = "OK" ↔ missing = []).
Proof.
  exact (expected_fields_found_or_missing Sample.incomplete (VInt 1)
           (take 2 Sample.all_fields) [Sample.car] Sample.rows []
           eq_refl eq_refl eq_refl eq_refl).
Defined.

Lemma uom_conversion_loop_raises (P : Platform) (e : exn) (item : Item)
  (items : list Item) (log : error_log) :
  tabUOMConversionDetail P = Raise e →
  uom_conversion_loop P (item :: items) log = (Raise e, log).
Proof.
  intros Htable. cbn [uom_conversion_loop]. unfold mbind, M_bind, bind, lift.
  rewrite Htable. reflexivity.
Qed.


(** ** The error log *)

Lemma keeps_log_ret {A : Type} (a : A) : keeps_log (mret a : M A).
Proof. intros log. reflexivity. Qed.

Lemma keeps_log_lift {A : Type} (r : result A) : keeps_log (lift r).
Proof. intros log. reflexivity. Qed.

Lemma keeps_log_bind {A B : Type} (m : M A) (k : A → M B) :
  keeps_log m → (∀ a, keeps_log (k a)) → keeps_log (m ≫= k).
Proof.
  intros Hm Hk log. unfold mbind, M_bind, bind. specialize (Hm log).
  destruct (m log) as [[a|e] log1]; cbn in Hm; subst log1; [apply Hk | reflexivity].
Qed.

Lemma keeps_log_loop (P : Platform) (items : list Item) :
  keeps_log (uom_conversion_loop P items).
Proof.
  induction items as [|item items IH]; [apply keeps_log_ret|].
  cbn [uom_conversion_loop]. apply keeps_log_bind; [apply keeps_log_lift|].
  intros table. apply keeps_log_bind; [exact IH|]. intros status. apply keeps_log_ret.
Qed.

Lemma keeps_log_api_check (P : Platform) (r : StatusReport) :
  keeps_log (api_endpoints_check P r).
Proof. intros log. rewrite api_endpoints_check_eval. reflexivity. Qed.

Ltac body_keeps_log :=
  repeat first
    [ progress cbv zeta
    | apply keeps_log_ret
    | apply keeps_log_lift
    | apply keeps_log_loop
    | apply keeps_log_api_check
    | match goal with
      | |- keeps_log (_ ≫= _) => apply keeps_log_bind; [|intros]
      | |- keeps_log (match ?x with _ => _ end) => destruct x
      end ].

Lemma try_except_logs_only_failure (body : M pyval) (args : exn → list string)
  (answer : exn → pyval) (log : error_log) :
  keeps_log body →
  (∀ e, field (answer e) "success" = Some (VBool false)) →
  logs_only_failure log
    (try_except body (λ e, log_error (args e);; mret (answer e)) log).
Proof.
  intros Hbody Hanswer. unfold try_except. specialize (Hbody log).
  destruct (body log) as [[v|e] log1]; cbn in Hbody; subst log1.
  - left. reflexivity.
  - right. exists (args e), (answer e). split; [reflexivity | apply Hanswer].
Qed.


(** ** The warning and the error of the integration report *)

(** X18: the report of [validate_integration_status] carries the warning
    "API endpoint validation inconclusive" exactly when the platform's
    wording of "Item Code is required", in lower case, does not contain
    "required"; a platform that leaves that message as it is never gets
    the warning, so its status is "healthy" or "error". *)
Theorem warning_depends_on_wording (P : Platform) (flag : pyval)
  (fields : list CustomField) (items : list Item)
  (table : list UOMConversionDetail) (log : error_log) :
  allow_uom_with_conversion_rate_defined_in_item P = Ok flag →
  tabCustomField P = Ok fields →
  tabItem P = Ok items →
  tabUOMConversionDetail P = Ok table →
  ∃ r,
    validate_integration_status P log = (Ok (report_val r), log)
    ∧ (warnings r = ["API endpoint validation inconclusive"]
       ↔ is_substring "required" (py_lower (translate P "Item Code is required")) = false)
    ∧ (warnings r = []
       ↔ is_substring "required" (py_lower (translate P "Item Code is required")) = true)
    ∧ (translate P "Item Code is required" = "Item Code is required" →
       warnings r = [] ∧ integration_status r ≠ "warning").
Proof.
  intros Hflag Hfields Hitems Htable.
  destruct (integration_report_eval P flag fields items
              (map (conversion_status table) (sample_items_query items)) log
              Hflag Hfields Hitems (uom_conversion_loop_eval P table _ log Htable))
    as (r & Hr & _ & _ & _ & _ & Hwarn & _ & Hstatus).
  exists r. split; [exact Hr|].
  assert (Hanswer : api_endpoints_answer P
                    = is_substring "required"
                        (py_lower (translate P "Item Code is required"))).
  { unfold api_endpoints_answer, message.
    assert (py_format (translate P "Item Code is required") []
            = translate P "Item Code is required") as ->; [|reflexivity].
    generalize (translate P "Item Code is required"). intros tpl.
    induction tpl as [|c tl IH]; [reflexivity|].
    cbn [py_format]. rewrite IH.
    destruct (Ascii.eqb c "{"); [|reflexivity].
    destruct tl as [|d [|cl rest]]; try reflexivity.
    destruct (Ascii.eqb cl "}"); [|reflexivity].
    destruct (digit_index d) as [[|i]|]; reflexivity. }
  rewrite Hanswer in Hwarn, Hstatus. rewrite Hwarn, Hstatus.
  split; [|split].
  - destruct (is_substring "required" _); split; intros H;
      try reflexivity; discriminate H.
  - destruct (is_substring "required" _); split; intros H;
      try reflexivity; discriminate H.
  - intros ->. split; [reflexivity|].
    destruct (has_rows (elements (missing_fields_of fields))); cbn; discriminate.
Qed.

(** The site of the user who reads French: always warned. *)
Lemma warning_depends_on_wording_witness :
  ∃ r,
    validate_integration_status Sample.french [] = (Ok (report_val r), [])
    ∧ (warnings r = ["API endpoint validation inconclusive"]
       ↔ is_substring "required"
           (py_lower (translate Sample.french "Item Code is required")) = false)
    ∧ (warnings r = []
       ↔ is_substring "required"
           (py_lower (translate Sample.french "Item Code is required")) = true)
    ∧ (translate Sample.french "Item Code is required" = "Item Code is required" →
       warnings r = [] ∧ integration_status r ≠ "warning").
Proof.
  exact (warning_depends_on_wording Sample.french (VInt 1) Sample.all_fields
           [Sample.car] Sample.rows [] eq_refl eq_refl eq_refl eq_refl).
Defined.

Lemma is_substring_app_l (p s t : string) :
  is_substring s t = true → is_substring s (p +:+ t) = true.
Proof.
  intros H. induction p as [|c p IH]; [exact H|].
  change (String c p +:+ t) with (String c (p +:+ t)). apply is_substring_cons, IH.
Qed.

Lemma is_substring_self (s : string) : is_substring s s = true.
Proof. exact (is_substring_app_r "" s). Qed.

Lemma join_names_each_part (sep f : string) (parts : list string) :
  In f parts → is_substring f (py_join sep parts) = true.
Proof.
  induction parts as [|p ps IH]; [intros []|].
  intros [->|Hin].
  - destruct ps as [|q ps]; [apply is_substring_self | apply is_substring_prefix].
  - destruct ps as [|q ps]; [destruct Hin|].
    change (py_join sep (p :: q :: ps)) with (p +:+ sep +:+ py_join sep (q :: ps)).
    apply is_substring_app_l, is_substring_app_l, IH, Hin.
Qed.

(** X19: when an expected custom field is missing, the single error of
    the report of [validate_integration_status] names every missing
    field: each expected field without a row for Opportunity Item occurs
    in the text "Missing custom fields: ...". *)
Theorem error_names_every_missing_field (P : Platform) (flag : pyval)
  (fields : list CustomField) (items : list Item)
  (table : list UOMConversionDetail) (log : error_log) (f : string) :
  allow_uom_with_conversion_rate_defined_in_item P = Ok flag →
  tabCustomField P = Ok fields →
  tabItem P = Ok items →
  tabUOMConversionDetail P = Ok table →
  In f expected_fields →
  (¬ ∃ row, In row fields ∧ cf_dt row = "Opportunity Item" ∧ cf_fieldname row = f) →
  ∃ r text,
    validate_integration_status P log = (Ok (report_val r), log)
    ∧ errors r = [text]
    ∧ starts_with "Missing custom fields: " text = true
    ∧ is_substring f text = true.
Proof.
  intros Hflag Hfields Hitems Htable Hf Hnone.
  destruct (integration_report_eval P flag fields items
              (map (conversion_status table) (sample_items_query items)) log
              Hflag Hfields Hitems (uom_conversion_loop_eval P table _ log Htable))
    as (r & Hr & _ & _ & _ & _ & _ & Herrors & _).
  assert (Hin : In f (elements (missing_fields_of fields))).
  { apply list_elem_of_In, elem_of_elements, missing_field_spec. split; assumption. }
  exists r, ("Missing custom fields: " +:+ py_join ", " (elements (missing_fields_of fields))).
  split; [exact Hr|]. split; [|split].
  - rewrite Herrors. destruct (elements (missing_fields_of fields)); [destruct Hin|reflexivity].
  - apply starts_with_app.
  - apply is_substring_app_l, join_names_each_part, Hin.
Qed.

(** The sample site without [custom__people_qty]. *)
Lemma error_names_every_missing_field_witness :
  ∃ r text,
    validate_integration_status Sample.incomplete [] = (Ok (report_val r), [])
    ∧ errors r = [text]
    ∧ starts_with "Missing custom fields: " text = true
    ∧ is_substring "custom__people_qty" text = true.
Proof.
  apply (error_names_every_missing_field Sample.incomplete (VInt 1)
           (take 2 Sample.all_fields) [Sample.car] Sample.rows [] "custom__people_qty"
           eq_refl eq_refl eq_refl eq_refl).
  - right. right. left. reflexivity.
  - intros (row & [<-|[<-|[]]] & _ & Hname); discriminate Hname.
Defined.

(** ** The item's table, read back *)

Lemma find_unique_row (rows : list UOMConversionDetail) (r : UOMConversionDetail) :
  List.NoDup (map ucd_uom rows) →
  In r rows →
  find (λ x, String.eqb (ucd_uom x) (ucd_uom r)) rows = Some r.
Proof.
  induction rows as [|x rows IH]; [intros _ []|].
  cbn [map find]. intros Hnodup Hin. inversion Hnodup as [|u us Hnot Hrest]; subst.
  destruct Hin as [->|Hin].
  - rewrite String.eqb_refl. reflexivity.
  - destruct (String.eqb (ucd_uom x) (ucd_uom r)) eqn:E.
    + apply String.eqb_eq in E. exfalso. apply Hnot. rewrite E.
      apply List.in_map, Hin.
    + apply IH; assumption.
Qed.

(** X20: with the flag set, each UOM that [get_item_uoms_and_conversion]
    lists can be asked back: for an item whose table names no UOM twice,
    requesting the UOM of any of its rows (a non-empty name) returns that
    row's conversion factor, with the same [uoms] list and no log entry. *)
Theorem listed_uom_reads_back_its_factor (P : Platform) (item_code : string)
  (item : Item) (flag : pyval) (r : UOMConversionDetail) (log : error_log) :
  str_truthy item_code = true →
  get_cached_doc P item_code = Ok (Some item) →
  allow_uom_with_conversion_rate_defined_in_item P = Ok flag →
  truthy flag = true →
  List.NoDup (map ucd_uom (item_uoms item)) →
  In r (item_uoms item) →
  str_truthy (ucd_uom r) = true →
  In (detail_entry (item_stock_uom item) r) (item_entries item)
  ∧ get_item_uoms_and_conversion P item_code (Some (ucd_uom r)) log
    = (Ok (and_conversion_result item flag (item_entries item)
             (VFloat (ucd_conversion_factor r))), log).
Proof.
  intros Hcode Hdoc Hflag Hon Hnodup Hin Huom. split.
  - apply List.in_map, Hin.
  - rewrite (and_conversion_eval P item_code item flag Hcode Hdoc Hflag), Hon.
    assert (has_rows (item_uoms item) = true) as ->
      by (destruct (item_uoms item); [destruct Hin | reflexivity]).
    cbn [andb]. unfold search_conversion_factor.
    rewrite Huom, (find_unique_row _ r Hnodup Hin). reflexivity.
Qed.

(** The box of the sample item. *)
Lemma listed_uom_reads_back_its_factor_witness :
  In (detail_entry "Nos" {| ucd_parent := "CAR-001"; ucd_uom := "Box";
                            ucd_conversion_factor := PyFloat.of_Z 12 |})
    (item_entries Sample.car)
  ∧ get_item_uoms_and_conversion Sample.on "CAR-001" (Some "Box") []
    = (Ok (and_conversion_result Sample.car (VInt 1) (item_entries Sample.car)
             (VFloat (PyFloat.of_Z 12))), []).
Proof.
  apply (listed_uom_reads_back_its_factor Sample.on "CAR-001" Sample.car (VInt 1)
           {| ucd_parent := "CAR-001"; ucd_uom := "Box";
              ucd_conversion_factor := PyFloat.of_Z 12 |} []
           eq_refl eq_refl eq_refl eq_refl).
  - repeat constructor; cbn; intuition discriminate.
  - left. reflexivity.
  - reflexivity.
Defined.

(** ** An item the platform does not return *)


